(** * Credential lifecycle of the TikTok OAuth2 proxy

    A shallow embedding of the credential core of the server:
    - [tokenStorage.js] (class [SecureTokenStorage]): [encrypt], [decrypt],
      [saveTokens], [loadTokens];
    - [index.js]: [generateRandomString], [generatePKCE], the
      [GET /auth/login] and [GET /auth/callback] handlers and
      [getValidAccessToken].

    JavaScript values are an inductive type, exceptions are an explicit
    [result], and the mutable process state (the token file and the
    module-level [codeVerifier]) is threaded through a small state and
    exception monad.  What Node itself provides (the JSON text codec, the
    password-based AES cipher, the digests) is an interface, [Platform],
    whose documented contract is the class [PlatformLaws]. *)

From Stdlib Require Import ZArith Lia Ascii String Strings.Byte.
From stdpp Require Import base strings list countable.

Open Scope string_scope.
Open Scope Z_scope.

(** ** JavaScript values *)

(** Numbers.  The program only computes with epoch milliseconds and with a
    lifetime in seconds, so a number is an integer or [NaN]; fractions,
    infinities and the rounding of doubles are outside the model. *)
Inductive number : Type :=
| Finite (z : Z)
| NaN.

(** A value as [JSON.parse] or an object literal produces it.  An object is
    its list of properties in insertion order, which is the order
    [JSON.stringify] writes them in. *)
#[warnings="-register-all"] Inductive value : Type :=
| VUndefined
| VNull
| VBool (b : bool)
| VNum (n : number)
| VStr (s : string)
| VObj (props : list (string * value)).

(** Exceptions the modelled code can meet. *)
Inductive exn : Type :=
| TypeError       (* property of null or undefined, wrong argument type *)
| SyntaxError     (* JSON.parse *)
| CipherError     (* decipher.update / decipher.final *)
| IOError         (* fs.writeFileSync *)
| AxiosError      (* transport failure or non-2xx status *)
| NoTokensError.  (* new Error('No tokens available. ...') *)

Inductive result (A : Type) : Type :=
| Ok (a : A)
| Throw (e : exn).
Arguments Ok {A} a.
Arguments Throw {A} e.

Definition num_add (a b : number) : number :=
  match a, b with
  | Finite x, Finite y => Finite (x + y)
  | _, _ => NaN
  end.

Definition num_sub (a b : number) : number :=
  match a, b with
  | Finite x, Finite y => Finite (x - y)
  | _, _ => NaN
  end.

Definition num_mul (a b : number) : number :=
  match a, b with
  | Finite x, Finite y => Finite (x * y)
  | _, _ => NaN
  end.

(** [a < b]: false as soon as one side is [NaN]. *)
Definition num_lt (a b : number) : bool :=
  match a, b with
  | Finite x, Finite y => x <? y
  | _, _ => false
  end.

(** ToBoolean. *)
Definition truthy (v : value) : bool :=
  match v with
  | VUndefined | VNull => false
  | VBool b => b
  | VNum (Finite z) => negb (z =? 0)
  | VNum NaN => false
  | VStr s => negb (String.eqb s "")
  | VObj _ => true
  end.

Fixpoint assoc (k : string) (props : list (string * value)) : value :=
  match props with
  | [] => VUndefined
  | (k', v) :: rest => if String.eqb k k' then v else assoc k rest
  end.

(** [v.k] for the property names the program reads, none of which is
    inherited from a prototype: a [TypeError] on [null] and [undefined],
    [undefined] on the other primitives. *)
Definition get_prop (v : value) (k : string) : result value :=
  match v with
  | VUndefined | VNull => Throw TypeError
  | VObj props => Ok (assoc k props)
  | _ => Ok VUndefined
  end.

(** ** What Node provides *)

Class Platform : Type := {
  (** the text [JSON.stringify] writes for a value that has neither
      [undefined] nor [NaN] inside *)
  JSON_text : value -> string;
  (** [JSON.parse]; [None] is its [SyntaxError] *)
  JSON_parse : string -> option value;
  (** [crypto.createCipher('aes-256-cbc', password)] followed by
      [update(text, 'utf8', 'hex') + final('hex')].  The key and the
      initialization vector of the cipher are both derived from the
      password: the function has no other input. *)
  cipher_hex : string -> string -> string;
  (** [crypto.createDecipher('aes-256-cbc', password)] followed by
      [update(hex, 'hex', 'utf8') + final('utf8')]; [None] when it throws *)
  decipher_utf8 : string -> string -> option string;
  (** [crypto.scryptSync(password, 'salt', 32).toString('hex')] *)
  scrypt_hex : string -> string;
  (** [crypto.createHash('sha256').update(s).digest('hex')] *)
  sha256_hex : string -> string;
  (** ToNumber on a string *)
  StringToNumber : string -> number
}.

(** ToNumber. *)
Definition to_number `{Platform} (v : value) : number :=
  match v with
  | VUndefined => NaN
  | VNull => Finite 0
  | VBool b => Finite (if b then 1 else 0)
  | VNum n => n
  | VStr s => StringToNumber s
  | VObj _ => NaN
  end.

(** *** [JSON.stringify] *)

(** What [JSON.stringify] serialises: a property whose value is [undefined]
    is left out, [NaN] is written [null]. *)
Fixpoint json_normalize (v : value) : value :=
  match v with
  | VNum NaN => VNull
  | VObj props =>
      VObj ((fix go (l : list (string * value)) : list (string * value) :=
               match l with
               | [] => []
               | (k, VUndefined) :: rest => go rest
               | (k, x) :: rest => (k, json_normalize x) :: go rest
               end) props)
  | _ => v
  end.

(** [JSON.stringify(v)]: [None] stands for the [undefined] it returns on
    [undefined]. *)
Definition JSON_stringify `{Platform} (v : value) : option string :=
  match v with
  | VUndefined => None
  | _ => Some (JSON_text (json_normalize v))
  end.

Definition is_digit (c : ascii) : bool :=
  let n := N_of_ascii c in ((48 <=? n) && (n <=? 57))%N.

(** A property name that is not an array index keeps its place in the
    property order. *)
Definition plain_key (k : string) : bool :=
  match k with
  | EmptyString => true
  | String c _ => negb (is_digit c)
  end.

Fixpoint fresh_key (k : string) (props : list (string * value)) : bool :=
  match props with
  | [] => true
  | (k', _) :: rest => negb (String.eqb k k') && fresh_key k rest
  end.

(** The values on which writing and reading JSON text is the identity: no
    [undefined], no [NaN], property names distinct and none an array
    index. *)
Fixpoint json_clean (v : value) : bool :=
  match v with
  | VUndefined => false
  | VNum NaN => false
  | VObj props =>
      (fix go (l : list (string * value)) : bool :=
         match l with
         | [] => true
         | (k, x) :: rest =>
             plain_key k && fresh_key k rest && json_clean x && go rest
         end) props
  | _ => true
  end.

(** The contract of the platform the store relies on. *)
Class PlatformLaws (P : Platform) : Prop := {
  JSON_parse_text :
    forall v, json_clean v = true -> JSON_parse (JSON_text v) = Some v;
  decipher_cipher :
    forall key text, decipher_utf8 key (cipher_hex key text) = Some text
}.

(** ** Process state and effects *)

(** The calls the outside world can observe, kept as a history. *)
Inductive event : Type :=
| EvPost (body : list (string * value))  (* axios.post to the token endpoint *)
| EvSave (tokens : value).               (* a call of tokenStorage.saveTokens *)

Record world : Type := {
  file : option string;   (* tokens.encrypted.json; [None]: it does not exist *)
  codeVerifier : value;   (* let codeVerifier = null *)
  trace : list event      (* history of calls, the most recent last *)
}.

Definition initial_world : world :=
  {| file := None; codeVerifier := VNull; trace := [] |}.

(** State and exceptions: a thrown exception keeps the state reached. *)
Definition M (A : Type) : Type := world -> result A * world.

Definition ret {A} (a : A) : M A := fun w => (Ok a, w).

Definition throw {A} (e : exn) : M A := fun w => (Throw e, w).

Definition bind {A B} (m : M A) (f : A -> M B) : M B :=
  fun w =>
    match m w with
    | (Ok a, w') => f a w'
    | (Throw e, w') => (Throw e, w')
    end.

Definition try_catch {A} (m : M A) (handler : exn -> M A) : M A :=
  fun w =>
    match m w with
    | (Ok a, w') => (Ok a, w')
    | (Throw e, w') => handler e w'
    end.

Definition lift {A} (r : result A) : M A := fun w => (r, w).

Definition get_world : M world := fun w => (Ok w, w).

Definition log (e : event) : M unit :=
  fun w =>
    (Ok tt, {| file := file w; codeVerifier := codeVerifier w;
               trace := trace w ++ [e] |}).

Definition set_codeVerifier (v : value) : M unit :=
  fun w =>
    (Ok tt, {| file := file w; codeVerifier := v; trace := trace w |}).

Definition set_file (text : string) : M unit :=
  fun w =>
    (Ok tt, {| file := Some text; codeVerifier := codeVerifier w;
               trace := trace w |}).

Declare Scope js_scope.
Delimit Scope js_scope with js.
Notation "'let*' x ':=' m 'in' k" := (bind m (fun x => k))
  (at level 10, x name, m at level 200, k at level 200) : js_scope.
Open Scope js_scope.

(** ** tokenStorage.js *)

Definition hex_digit (n : N) : ascii :=
  match n with
  | 0 => "0" | 1 => "1" | 2 => "2" | 3 => "3" | 4 => "4" | 5 => "5"
  | 6 => "6" | 7 => "7" | 8 => "8" | 9 => "9" | 10 => "a" | 11 => "b"
  | 12 => "c" | 13 => "d" | 14 => "e" | _ => "f"
  end%N%char.

(** [Buffer.toString('hex')] *)
Fixpoint hex (bytes : list byte) : string :=
  match bytes with
  | [] => ""
  | b :: rest =>
      let n := Byte.to_N b in
      String (hex_digit (n / 16)) (String (hex_digit (n mod 16)) (hex rest))
  end.

(** How a write to the token file ends. *)
Inductive write_outcome : Type :=
| Written         (* the whole text is in the file *)
| NotOpened       (* the file could not be opened: it is as it was *)
| Torn (n : nat). (* the write failed after the file was opened and emptied:
                     the file holds the first [n] characters of the text *)

Record SecureTokenStorage : Type := {
  encryptionKey : string
}.

Section Store.
Context `{P : Platform}.

(** The constructor.  [key] is [process.env.ENCRYPTION_KEY] ([None] when it
    is not set) and [random] the bytes [generateEncryptionKey] draws. *)
Definition new_SecureTokenStorage (key : option string) (random : list byte)
  : SecureTokenStorage :=
  let k := match key with
           | Some k => if String.eqb k "" then hex random else k
           | None => hex random
           end in
  {| encryptionKey := if (String.length k <? 32)%nat then scrypt_hex k else k |}.

Variable this : SecureTokenStorage.

(** [encrypt(data)]; [iv] is what [crypto.randomBytes(16)] returns. *)
Definition encrypt (iv : list byte) (data : value) : result value :=
  match JSON_stringify data with
  | None => Throw TypeError  (* cipher.update(undefined, ...) *)
  | Some text =>
      Ok (VObj [("iv", VStr (hex iv));
                ("encrypted", VStr (cipher_hex (encryptionKey this) text))])
  end.

Definition decipher_update_final (data : value) : result string :=
  match data with
  | VStr h =>
      match decipher_utf8 (encryptionKey this) h with
      | Some text => Ok text
      | None => Throw CipherError
      end
  | _ => Throw TypeError
  end.

Definition JSON_parse_or_throw (text : string) : result value :=
  match JSON_parse text with
  | Some v => Ok v
  | None => Throw SyntaxError
  end.

(** [decrypt(encryptedData)]: the whole body is inside [try], the handler
    returns [null]. *)
Definition decrypt (encryptedData : value) : value :=
  let body :=
    match get_prop encryptedData "encrypted" with
    | Throw e => Throw e
    | Ok data =>
        match decipher_update_final data with
        | Throw e => Throw e
        | Ok decrypted => JSON_parse_or_throw decrypted
        end
    end in
  match body with
  | Ok v => v
  | Throw _ => VNull
  end.

(** [fs.writeFileSync(this.filePath, data)].  It opens the file for
    writing, which empties it, and then writes; [disk] tells how that
    ends.  After a failure the file holds what had been written. *)
Definition writeFileSync (disk : write_outcome) (data : option string)
  : M unit :=
  match data with
  | None => throw TypeError
  | Some text =>
      match disk with
      | Written => set_file text
      | NotOpened => throw IOError
      | Torn n =>
          let* _ := set_file (String.substring 0 n text) in
          throw IOError
      end
  end.

(** [saveTokens(tokens)] *)
Definition saveTokens (iv : list byte) (disk : write_outcome) (tokens : value)
  : M bool :=
  let* _ := log (EvSave tokens) in
  try_catch
    (let* encrypted := lift (encrypt iv tokens) in
     let* _ := writeFileSync disk (JSON_stringify encrypted) in
     ret true)
    (fun _ => ret false).

(** [loadTokens()] *)
Definition loadTokens : M value :=
  try_catch
    (let* w := get_world in
     match file w with
     | None => ret VNull  (* !fs.existsSync(this.filePath) *)
     | Some content =>
         let* encryptedData := lift (JSON_parse_or_throw content) in
         let tokens := decrypt encryptedData in
         if truthy tokens then ret tokens else ret VNull
     end)
    (fun _ => ret VNull).

End Store.

Arguments saveTokens : simpl never.
Arguments loadTokens : simpl never.

(** ** index.js *)

(** The part of [process.env] the handlers read; a variable that is not set
    is [undefined]. *)
Record config : Type := {
  TIKTOK_CLIENT_KEY : value;
  TIKTOK_CLIENT_SECRET : value;
  TIKTOK_REDIRECT_URI : value
}.

(** What [axios.post] gives: the parsed body of a 2xx response, or a
    rejection (transport failure, status outside 2xx). *)
Inductive http_result : Type :=
| Responded (data : value)
| Rejected.

(** What a handler sends back. *)
Inductive body : Type :=
| Text (s : string)
| ErrorText (error description : value)
    (* `Error: ${error}, Description: ${description}` *)
| SuccessPage.

Inductive reply : Type :=
| Redirect (params : list (string * value))  (* res.redirect(authUrl) *)
| Send (status : nat) (b : body).            (* res.status(status).send(b) *)

(** The failures of the callback handler, under the names of the error
    taxonomy. *)
Definition MissingCode : reply := Send 400 (Text "Missing code").
Definition MissingVerifier : reply := Send 400 (Text "No code verifier found").
Definition UpstreamRejected (error description : value) : reply :=
  Send 400 (ErrorText error description).
Definition UpstreamMalformed : reply :=
  Send 400 (Text "Access token not received").
Definition ExchangeFailed : reply := Send 500 (Text "Token exchange failed").
Definition LoginSuccessful : reply := Send 200 SuccessPage.

Definition characters : string :=
  "ABCDEFGHIJKLMNOPQRSTUVWXYZabcdefghijklmnopqrstuvwxyz0123456789-._~".

(** [s.charAt(i)]: the empty string out of range. *)
Definition charAt (s : string) (i : nat) : string :=
  match String.get i s with
  | Some c => String c ""
  | None => ""
  end.

(** The loop of [generateRandomString]: [n] iterations are left, [i] is the
    loop counter, and [draw i] is the value of
    [Math.floor(Math.random() * charactersLength)] in iteration [i]. *)
Fixpoint random_loop (n i : nat) (draw : nat -> nat) (result : string)
  : string :=
  match n with
  | O => result
  | S n' =>
      random_loop n' (S i) draw (result +:+ charAt characters (draw i))
  end.

Definition generateRandomString (length : nat) (draw : nat -> nat) : string :=
  random_loop length 0 draw "".

Arguments generateRandomString : simpl never.

Section Server.
Context `{P : Platform}.
Variable env : config.
Variable tokenStorage : SecureTokenStorage.

(** [generatePKCE()]: the verifier and its challenge. *)
Definition generatePKCE (draw : nat -> nat) : string * string :=
  let verifier := generateRandomString 64 draw in
  (verifier, sha256_hex verifier).

(** [axios.post('https://open.tiktokapis.com/v2/oauth/token/', body)] *)
Definition axios_post (body : list (string * value)) (upstream : http_result)
  : M value :=
  let* _ := log (EvPost body) in
  match upstream with
  | Responded data => ret data
  | Rejected => throw AxiosError
  end.

(** [Date.now() + expires_in * 1000], as the arithmetic of doubles gives
    it while the product and the sum stay within the safe integers. *)
Definition expiry (now : Z) (expires_in : value) : value :=
  VNum (num_add (Finite now) (num_mul (to_number expires_in) (Finite 1000))).

(** [GET /auth/login] *)
Definition auth_login (draw : nat -> nat) : M reply :=
  let pkce := generatePKCE draw in
  let* _ := set_codeVerifier (VStr (fst pkce)) in
  ret (Redirect
         [("client_key", TIKTOK_CLIENT_KEY env);
          ("redirect_uri", TIKTOK_REDIRECT_URI env);
          ("response_type", VStr "code");
          ("scope", VStr "user.info.basic,user.info.profile,user.info.stats,video.publish,video.upload");
          ("state", VStr "secureRandomState123");
          ("code_challenge", VStr (snd pkce));
          ("code_challenge_method", VStr "S256")]).

(** The body of the token request of the callback handler. *)
Definition requestData (code code_verifier : value)
  : list (string * value) :=
  [("client_key", TIKTOK_CLIENT_KEY env);
   ("client_secret", TIKTOK_CLIENT_SECRET env);
   ("code", code);
   ("grant_type", VStr "authorization_code");
   ("redirect_uri", TIKTOK_REDIRECT_URI env);
   ("code_verifier", code_verifier)].

(** The body of the refresh request of [getValidAccessToken]. *)
Definition refreshData (refresh_token : value) : list (string * value) :=
  [("client_key", TIKTOK_CLIENT_KEY env);
   ("client_secret", TIKTOK_CLIENT_SECRET env);
   ("grant_type", VStr "refresh_token");
   ("refresh_token", refresh_token)].

(** The record both [saveTokens] calls build:
    [{ access_token, refresh_token, expires_at: Date.now() + expires_in * 1000 }] *)
Definition new_tokens (access_token refresh_token expires_in : value)
    (now : Z) : value :=
  VObj [("access_token", access_token);
        ("refresh_token", refresh_token);
        ("expires_at", expiry now expires_in)].

(** [GET /auth/callback].  [code] is [req.query.code], [upstream] the
    outcome of the token request, [now] the value of [Date.now()], [iv] and
    [disk] what [saveTokens] meets. *)
Definition auth_callback (code : value) (upstream : http_result) (now : Z)
    (iv : list byte) (disk : write_outcome) : M reply :=
  if negb (truthy code) then ret MissingCode else
  let* w := get_world in
  if negb (truthy (codeVerifier w)) then ret MissingVerifier else
  try_catch
    (let* data := axios_post (requestData code (codeVerifier w)) upstream in
     let* error := lift (get_prop data "error") in
     if truthy error then
       let* description := lift (get_prop data "error_description") in
       ret (UpstreamRejected error description)
     else
     let* access_token := lift (get_prop data "access_token") in
     if negb (truthy access_token) then ret UpstreamMalformed else
     let* refresh_token := lift (get_prop data "refresh_token") in
     let* expires_in := lift (get_prop data "expires_in") in
     let* _ := saveTokens tokenStorage iv disk
                 (new_tokens access_token refresh_token expires_in now) in
     (* Clear code verifier after successful token exchange *)
     let* _ := set_codeVerifier VNull in
     ret LoginSuccessful)
    (fun _ => ret ExchangeFailed).

(** [getValidAccessToken()].  [now] is the value of [Date.now()] at the
    expiry test and [now'] its value when the renewed record is built. *)
Definition getValidAccessToken (now now' : Z) (upstream : http_result)
    (iv : list byte) (disk : write_outcome) : M value :=
  let* tokens := loadTokens tokenStorage in
  if negb (truthy tokens) then throw NoTokensError else
  let* expires_at := lift (get_prop tokens "expires_at") in
  if num_lt (Finite now) (num_sub (to_number expires_at) (Finite (60 * 1000)))
  then lift (get_prop tokens "access_token")
  else
  let* old_refresh_token := lift (get_prop tokens "refresh_token") in
  let* data := axios_post (refreshData old_refresh_token) upstream in
  let* access_token := lift (get_prop data "access_token") in
  let* refresh_token := lift (get_prop data "refresh_token") in
  let* expires_in := lift (get_prop data "expires_in") in
  let* _ := saveTokens tokenStorage iv disk
              (new_tokens access_token refresh_token expires_in now') in
  ret access_token.

End Server.

(** ** Vocabulary of the statements *)

(** The object [encrypt] returns, with the [iv] property left open. *)
Definition envelope `{Platform} (this : SecureTokenStorage) (iv : value)
    (text : string) : value :=
  VObj [("iv", iv);
        ("encrypted", VStr (cipher_hex (encryptionKey this) text))].

(** [v.k] when [v] is neither [null] nor [undefined]. *)
Definition prop (v : value) (k : string) : value :=
  match get_prop v k with
  | Ok x => x
  | Throw _ => VUndefined
  end.

(** The world with the content of the token file replaced. *)
Definition with_file (content : string) (w : world) : world :=
  {| file := Some content; codeVerifier := codeVerifier w; trace := trace w |}.

(** Stored content that fails to parse or to decrypt: it is not JSON text,
    or it has no string under [encrypted], or that string does not
    decipher, or what it deciphers to is not JSON text. *)
Definition unreadable `{Platform} (this : SecureTokenStorage)
    (content : string) : Prop :=
  match JSON_parse content with
  | None => True
  | Some encryptedData =>
      match get_prop encryptedData "encrypted" with
      | Throw _ => True
      | Ok data =>
          match decipher_update_final this data with
          | Throw _ => True
          | Ok text => JSON_parse text = None
          end
      end
  end.

(** A credential record with its three fields. *)
Definition CredentialRecord (access_token refresh_token : string)
    (expires_at : Z) : value :=
  VObj [("access_token", VStr access_token);
        ("refresh_token", VStr refresh_token);
        ("expires_at", VNum (Finite expires_at))].

Definition well_formed (r : value) : Prop :=
  exists access_token refresh_token expires_at,
    access_token <> "" /\ refresh_token <> "" /\
    r = CredentialRecord access_token refresh_token expires_at.

Definition nonempty_string (v : value) : bool :=
  match v with
  | VStr s => negb (String.eqb s "")
  | _ => false
  end.

Definition finite_number (v : value) : bool :=
  match v with
  | VNum (Finite _) => true
  | _ => false
  end.

(** All three fields present and non-empty. *)
Definition fully_populated (r : value) : bool :=
  match r with
  | VObj props =>
      nonempty_string (assoc "access_token" props)
      && nonempty_string (assoc "refresh_token" props)
      && finite_number (assoc "expires_at" props)
  | _ => false
  end.

(** The world once a request with this body has gone to the token
    endpoint. *)
Definition posted (body : list (string * value)) (w : world) : world :=
  {| file := file w; codeVerifier := codeVerifier w;
     trace := trace w ++ [EvPost body] |}.

(** The number of requests to the token endpoint in a history. *)
Fixpoint posts (t : list event) : nat :=
  match t with
  | [] => O
  | EvPost _ :: rest => S (posts rest)
  | EvSave _ :: rest => posts rest
  end.

(** The records passed to [saveTokens] in a history. *)
Fixpoint saves (t : list event) : list value :=
  match t with
  | [] => []
  | EvSave r :: rest => r :: saves rest
  | EvPost _ :: rest => saves rest
  end.

(** The expiry test of [getValidAccessToken]. *)
Definition still_valid `{Platform} (now : Z) (expires_at : value) : bool :=
  num_lt (Finite now) (num_sub (to_number expires_at) (Finite (60 * 1000))).

(** Every draw is an index into [characters], as
    [Math.floor(Math.random() * charactersLength)] is. *)
Definition in_range (draw : nat -> nat) : Prop :=
  forall i, (draw i < String.length characters)%nat.

(** The world after a sequence of [GET /auth/login] requests. *)
Definition logins `{Platform} (env : config) (draws : list (nat -> nat))
    (w : world) : world :=
  fold_left (fun w draw => snd (auth_login env draw w)) draws w.

(** The token responses on which the callback handler goes on to save. *)
Definition exchange_succeeds (upstream : http_result) : bool :=
  match upstream with
  | Responded (VObj props) =>
      negb (truthy (assoc "error" props))
      && truthy (assoc "access_token" props)
  | _ => false
  end.

(** The body of a request has the value [v] under the name [k], and no
    other value under that name. *)
Definition carries (body : list (string * value)) (k : string) (v : value)
  : Prop :=
  In (k, v) body /\ forall v', In (k, v') body -> v' = v.

(** The [encrypted] property of what [encrypt] returns. *)
Definition encrypted_field (r : result value) : result value :=
  match r with
  | Ok e => get_prop e "encrypted"
  | Throw x => Throw x
  end.

(** ** A small platform that meets the contract

    It is used to run the model on concrete inputs.  JSON text is replaced
    by an injective numbering of values written in binary, and the cipher
    prefixes the text with the password; reading or deciphering anything
    else fails. *)
Module Sample.

Definition leaf : Type := (nat + bool) + (Z + string).

Fixpoint to_tree (v : value) : gen_tree leaf :=
  match v with
  | VUndefined => GenLeaf (inl (inl 0%nat))
  | VNull => GenLeaf (inl (inl 1%nat))
  | VNum NaN => GenLeaf (inl (inl 2%nat))
  | VBool b => GenLeaf (inl (inr b))
  | VNum (Finite z) => GenLeaf (inr (inl z))
  | VStr s => GenLeaf (inr (inr s))
  | VObj props =>
      GenNode 0
        ((fix go (l : list (string * value)) : list (gen_tree leaf) :=
            match l with
            | [] => []
            | (k, x) :: rest => GenLeaf (inr (inr k)) :: to_tree x :: go rest
            end) props)
  end.

Fixpoint of_tree (t : gen_tree leaf) : value :=
  match t with
  | GenLeaf (inl (inl 0%nat)) => VUndefined
  | GenLeaf (inl (inl 1%nat)) => VNull
  | GenLeaf (inl (inl _)) => VNum NaN
  | GenLeaf (inl (inr b)) => VBool b
  | GenLeaf (inr (inl z)) => VNum (Finite z)
  | GenLeaf (inr (inr s)) => VStr s
  | GenNode _ ts =>
      VObj ((fix go (l : list (gen_tree leaf)) : list (string * value) :=
               match l with
               | GenLeaf (inr (inr k)) :: x :: rest => (k, of_tree x) :: go rest
               | _ => []
               end) ts)
  end.

Fixpoint bits (p : positive) : string :=
  match p with
  | xH => ""
  | xO q => String "0" (bits q)
  | xI q => String "1" (bits q)
  end.

Fixpoint of_bits (s : string) : option positive :=
  match s with
  | EmptyString => Some xH
  | String c rest =>
      if Ascii.eqb c "0" then xO <$> of_bits rest
      else if Ascii.eqb c "1" then xI <$> of_bits rest
      else None
  end.

Definition text (v : value) : string := bits (encode (to_tree v)).

Definition parse (s : string) : option value :=
  match of_bits s with
  | Some p => of_tree <$> decode p
  | None => None
  end.

Fixpoint strip_prefix (p s : string) : option string :=
  match p, s with
  | EmptyString, _ => Some s
  | String a p', String b s' => if Ascii.eqb a b then strip_prefix p' s' else None
  | String _ _, EmptyString => None
  end.

Definition cipher (key plain : string) : string := key +:+ plain.

Definition decipher (key data : string) : option string := strip_prefix key data.

(** Strings of decimal digits are numbers, the others are not. *)
Fixpoint digits (s : string) (acc : Z) : number :=
  match s with
  | EmptyString => Finite acc
  | String c rest =>
      if is_digit c
      then digits rest (10 * acc + Z.of_N (N_of_ascii c) - 48)
      else NaN
  end.

#[export] Instance platform : Platform := {|
  JSON_text := text;
  JSON_parse := parse;
  cipher_hex := cipher;
  decipher_utf8 := decipher;
  scrypt_hex := fun s => "scrypt:" +:+ s;
  sha256_hex := fun s => "sha256:" +:+ s;
  StringToNumber := fun s => digits s 0
|}.

Definition env : config :=
  {| TIKTOK_CLIENT_KEY := VStr "key";
     TIKTOK_CLIENT_SECRET := VStr "secret";
     TIKTOK_REDIRECT_URI := VStr "http://localhost/auth/callback" |}.

Definition storage : SecureTokenStorage :=
  new_SecureTokenStorage (Some "0123456789abcdef0123456789abcdef") [].

(** Random draws that always pick the first character. *)
Definition draw : nat -> nat := fun _ => 0%nat.

(** The state after one login request. *)
Definition authorizing : world := snd (auth_login env draw initial_world).

(** The state after [r] was saved in an empty store. *)
Definition stored (r : value) : world :=
  snd (saveTokens storage [x2a] Written r initial_world).

(** A token response with the three fields. *)
Definition granted : http_result :=
  Responded (VObj [("access_token", VStr "b");
                   ("refresh_token", VStr "r2");
                   ("expires_in", VNum (Finite 3600))]).

(** A token response that carries an error. *)
Definition refused : http_result :=
  Responded (VObj [("error", VStr "invalid_grant");
                   ("error_description", VStr "revoked")]).

End Sample.

(** ** tokenStorage.js: the remaining methods *)

Definition remove_file : M unit :=
  fun w =>
    (Ok tt, {| file := None; codeVerifier := codeVerifier w;
               trace := trace w |}).

(** [generateEncryptionKey()]; [random] is what [crypto.randomBytes(32)]
    returns. *)
Definition generateEncryptionKey (random : list byte) : string := hex random.

Section StoreMethods.
Context `{P : Platform}.
Variable this : SecureTokenStorage.

(** [fs.unlinkSync(this.filePath)]; [removable] tells whether the file system
    accepts the removal. *)
Definition unlinkSync (removable : bool) : M unit :=
  if removable then remove_file else throw IOError.

(** [clearTokens()] *)
Definition clearTokens (removable : bool) : M bool :=
  try_catch
    (let* w := get_world in
     let* _ := match file w with
               | Some _ => unlinkSync removable  (* fs.existsSync(this.filePath) *)
               | None => ret tt
               end in
     ret true)
    (fun _ => ret false).

(** [hasValidTokens()]; [now] is the value of [Date.now()]. *)
Definition hasValidTokens (now : Z) : M bool :=
  let* tokens := loadTokens this in
  if negb (truthy tokens) then ret false else
  let* access_token := lift (get_prop tokens "access_token") in
  if negb (truthy access_token) then ret false else
  let bufferTime := 5 * 60 * 1000 in
  let* expires_at := lift (get_prop tokens "expires_at") in
  ret (num_lt (Finite now) (num_sub (to_number expires_at) (Finite bufferTime))).

End StoreMethods.

Arguments clearTokens : simpl never.
Arguments hasValidTokens : simpl never.

(** ** index.js: the handlers that relay a call *)

(** A request to the TikTok API, with the value interpolated after
    [Bearer ] in its [Authorization] header. *)
Inductive api_request : Type :=
| ApiPost (url : string) (data : value) (bearer : value)
    (* axios.post(url, data, { headers }) *)
| ApiGet (url : string) (query : value) (bearer : value).
    (* axios.get(`${url}${query}`, { headers }) *)

(** What a relay handler sends back. *)
Inductive api_reply : Type :=
| Json (status : nat) (v : value)       (* res.status(status).json(v) *)
| Plain (status : nat) (text : string)  (* res.status(status).send(text) *)
| Failure (error : string) (cause : exn).
    (* res.status(500).json({ error, details: err.response?.data || err.message }) *)

(** The process state together with the requests sent to the API, the most
    recent last. *)
Record server : Type := {
  core : world;
  calls : list api_request
}.

Definition Handler (A : Type) : Type := server -> result A * server.

Definition ret_s {A} (a : A) : Handler A := fun s => (Ok a, s).

Definition throw_s {A} (e : exn) : Handler A := fun s => (Throw e, s).

Definition bind_s {A B} (m : Handler A) (f : A -> Handler B) : Handler B :=
  fun s =>
    match m s with
    | (Ok a, s') => f a s'
    | (Throw e, s') => (Throw e, s')
    end.

Definition try_catch_s {A} (m : Handler A) (handler : exn -> Handler A)
  : Handler A :=
  fun s =>
    match m s with
    | (Ok a, s') => (Ok a, s')
    | (Throw e, s') => handler e s'
    end.

(** A computation on the process state, run inside a handler. *)
Definition on_core {A} (m : M A) : Handler A :=
  fun s =>
    match m (core s) with
    | (r, w') => (r, {| core := w'; calls := calls s |})
    end.

(** An API request and its outcome. *)
Definition api_call (request : api_request) (outcome : http_result)
  : Handler value :=
  fun s =>
    let s' := {| core := core s; calls := calls s ++ [request] |} in
    match outcome with
    | Responded data => (Ok data, s')
    | Rejected => (Throw AxiosError, s')
    end.

Notation "'let+' x ':=' m 'in' k" := (bind_s m (fun x => k))
  (at level 10, x name, m at level 200, k at level 200) : js_scope.

Section Relay.
Context `{P : Platform}.
Variable env : config.
Variable tokenStorage : SecureTokenStorage.

(** The inputs [getValidAccessToken] meets during one request. *)
Record token_inputs : Type := {
  t_now : Z;               (* Date.now() at the expiry test *)
  t_saved : Z;             (* Date.now() when the renewed record is built *)
  t_upstream : http_result; (* the outcome of a refresh request *)
  t_iv : list byte;
  t_disk : write_outcome
}.

Definition valid_token (i : token_inputs) : Handler value :=
  on_core (getValidAccessToken env tokenStorage (t_now i) (t_saved i)
             (t_upstream i) (t_iv i) (t_disk i)).

(** [GET /creator-info]; [api] is the outcome of the API request. *)
Definition creator_info (i : token_inputs) (api : http_result)
  : Handler api_reply :=
  try_catch_s
    (let+ access_token := valid_token i in
     let+ data :=
       api_call
         (ApiPost
            "https://open.tiktokapis.com/v2/post/publish/creator_info/query/"
            (VObj []) access_token) api in
     ret_s (Json 200 data))
    (fun _ => ret_s (Plain 500 "API call failed")).

(** [GET /user/info]; [fields] is [req.query.fields]. *)
Definition user_info (i : token_inputs) (fields : value) (api : http_result)
  : Handler api_reply :=
  try_catch_s
    (let+ access_token := valid_token i in
     if negb (truthy fields) then
       ret_s (Json 400
                (VObj [("error", VStr "fields query parameter is required");
                       ("example",
                        VStr "GET /user/info?fields=open_id,union_id,avatar_url")]))
     else
     let+ data :=
       api_call
         (ApiGet "https://open.tiktokapis.com/v2/user/info/?fields="
            fields access_token) api in
     ret_s (Json 200 data))
    (fun err => ret_s (Failure "User info request failed" err)).

(** [GET /video/status]; [publish_id] is [req.query.publish_id]. *)
Definition video_status (i : token_inputs) (publish_id : value)
    (api : http_result) : Handler api_reply :=
  try_catch_s
    (let+ access_token := valid_token i in
     if negb (truthy publish_id) then
       ret_s (Json 400
                (VObj [("error",
                        VStr "publish_id query parameter is required")]))
     else
     let+ data :=
       api_call
         (ApiPost "https://open.tiktokapis.com/v2/post/publish/status/fetch/"
            (VObj [("publish_id", publish_id)]) access_token) api in
     ret_s (Json 200 data))
    (fun err => ret_s (Failure "Status check failed" err)).

End Relay.

(** *** The chunk plan of [POST /video/direct-post] *)

(** [(fileSize < 10 * 1024 * 1024) ? fileSize : 10 * 1024 * 1024] *)
Definition chunkSize (fileSize : Z) : Z :=
  if fileSize <? 10 * 1024 * 1024 then fileSize else 10 * 1024 * 1024.

(** [Math.ceil(a / b)] on integers; [0 / 0] is [NaN]. *)
Definition ceil_div (a b : Z) : number :=
  if b =? 0 then NaN else Finite (- ((- a) / b)).

(** [Math.ceil(fileSize / chunkSize)] *)
Definition totalChunkCount (fileSize : Z) : number :=
  ceil_div fileSize (chunkSize fileSize).

(** ** Vocabulary of the further statements *)

(** Every character of [s] is one of [characters]. *)
Fixpoint all_in (alphabet s : string) : Prop :=
  match s with
  | EmptyString => True
  | String c rest =>
      (exists i, String.get i alphabet = Some c) /\ all_in alphabet rest
  end.

(** A token request that brings back nothing to read: it was rejected, or
    its body is [null] or [undefined]. *)
Definition without_body (upstream : http_result) : bool :=
  match upstream with
  | Rejected | Responded VUndefined | Responded VNull => true
  | Responded _ => false
  end.

(** The world in which the verifier has been cleared. *)
Definition cleared (w : world) : world :=
  {| file := file w; codeVerifier := VNull; trace := trace w |}.

(** The server once one more request has gone to the API. *)
Definition called (request : api_request) (s : server) : server :=
  {| core := core s; calls := calls s ++ [request] |}.

(** The server with its process state replaced. *)
Definition with_core (w : world) (s : server) : server :=
  {| core := w; calls := calls s |}.

(** The three API requests of the relay handlers. *)
Definition creator_info_request (bearer : value) : api_request :=
  ApiPost "https://open.tiktokapis.com/v2/post/publish/creator_info/query/"
    (VObj []) bearer.

Definition user_info_request (fields bearer : value) : api_request :=
  ApiGet "https://open.tiktokapis.com/v2/user/info/?fields=" fields bearer.

Definition video_status_request (publish_id bearer : value) : api_request :=
  ApiPost "https://open.tiktokapis.com/v2/post/publish/status/fetch/"
    (VObj [("publish_id", publish_id)]) bearer.

(** The two answers to a request that lacks its parameter. *)
Definition fields_required : api_reply :=
  Json 400
    (VObj [("error", VStr "fields query parameter is required");
           ("example",
            VStr "GET /user/info?fields=open_id,union_id,avatar_url")]).

Definition publish_id_required : api_reply :=
  Json 400 (VObj [("error", VStr "publish_id query parameter is required")]).

(** What [getValidAccessToken()] does for a request served in state [s]. *)
Definition token_outcome `{Platform} (env : config)
    (tokenStorage : SecureTokenStorage) (i : token_inputs) (s : server)
  : result value * world :=
  getValidAccessToken env tokenStorage (t_now i) (t_saved i) (t_upstream i)
    (t_iv i) (t_disk i) (core s).


(** A server that has sent nothing yet. *)
Definition serving (w : world) : server := {| core := w; calls := [] |}.

(** The inputs of a request served at time [t] while the token endpoint is
    never reached. *)
Definition at_time (t : Z) : token_inputs :=
  {| t_now := t; t_saved := t; t_upstream := Rejected; t_iv := [];
     t_disk := Written |}.

(** ** Further sample states *)

Module Run.

(** A record that expires at 1000000 and one that expires at 6000. *)
Definition fresh_record : value := CredentialRecord "a" "r" 1000000.
Definition stale_record : value := CredentialRecord "a" "r" 6000.

Definition fresh : world := Sample.stored fresh_record.
Definition stale : world := Sample.stored stale_record.

(** A request served at 7000 while the token endpoint grants a refresh. *)
Definition refreshing : token_inputs :=
  {| t_now := 7000; t_saved := 7001; t_upstream := Sample.granted;
     t_iv := [x2a]; t_disk := Written |}.

(** A request served at 7000 while the token endpoint refuses the
    refresh. *)
Definition refusing : token_inputs :=
  {| t_now := 7000; t_saved := 7001; t_upstream := Sample.refused;
     t_iv := [x2a]; t_disk := Written |}.

(** The properties of the granted token response. *)
Definition granted_props : list (string * value) :=
  [("access_token", VStr "b"); ("refresh_token", VStr "r2");
   ("expires_in", VNum (Finite 3600))].

End Run.

(** * Properties *)

(** ** Induction on values *)

Lemma value_rect_props (Q : value -> Prop) :
  Q VUndefined -> Q VNull -> (forall b, Q (VBool b)) ->
  (forall n, Q (VNum n)) -> (forall s, Q (VStr s)) ->
  (forall props, Forall (fun kv => Q (snd kv)) props -> Q (VObj props)) ->
  forall v, Q v.
Proof.
  intros Hu Hn Hb Hnum Hs Hobj.
  fix IH 1.
  intros [ | | b | n | s | props];
    [exact Hu | exact Hn | apply Hb | apply Hnum | apply Hs | ].
  apply Hobj.
  induction props as [ | [k x] rest IHrest]; constructor.
  - apply IH.
  - exact IHrest.
Qed.

(** ** The sample platform meets the contract *)

Lemma Sample_of_to_tree v : Sample.of_tree (Sample.to_tree v) = v.
Proof.
  induction v as [ | | b | [z | ] | s | props IH] using value_rect_props;
    try reflexivity.
  simpl. f_equal.
  induction IH as [ | [k x] rest Hx _ IHrest]; simpl in *; [reflexivity | ].
  now rewrite Hx, IHrest.
Qed.

Lemma Sample_of_bits_bits p : Sample.of_bits (Sample.bits p) = Some p.
Proof.
  induction p as [q IH | q IH | ]; simpl; try rewrite IH; reflexivity.
Qed.

Lemma Sample_parse_text v : Sample.parse (Sample.text v) = Some v.
Proof.
  unfold Sample.parse, Sample.text.
  rewrite Sample_of_bits_bits, decode_encode. simpl.
  now rewrite Sample_of_to_tree.
Qed.

Lemma Sample_strip_prefix_app key plain :
  Sample.strip_prefix key (key +:+ plain) = Some plain.
Proof.
  induction key as [ | c key IH]; simpl.
  - now destruct plain.
  - now rewrite Ascii.eqb_refl.
Qed.

Lemma Sample_laws : PlatformLaws Sample.platform.
Proof.
  split.
  - intros v _. apply Sample_parse_text.
  - intros key plain. apply Sample_strip_prefix_app.
Qed.

(** ** JSON.stringify on values that need no normalisation *)

Lemma json_normalize_clean v : json_clean v = true -> json_normalize v = v.
Proof.
  induction v as [ | | b | [z | ] | s | props IH] using value_rect_props;
    try reflexivity; try discriminate.
  intros Hclean. simpl in *. f_equal.
  induction IH as [ | [k x] rest Hx _ IHrest]; [reflexivity | ].
  simpl in Hclean.
  apply andb_prop in Hclean as [Hclean Hrest].
  apply andb_prop in Hclean as [_ Hxclean].
  simpl in Hx. rewrite (IHrest Hrest).
  specialize (Hx Hxclean).
  destruct x; try discriminate; now rewrite ?Hx.
Qed.

Lemma JSON_stringify_clean `{P : Platform} v :
  json_clean v = true -> JSON_stringify v = Some (JSON_text v).
Proof.
  intros Hclean. unfold JSON_stringify.
  rewrite (json_normalize_clean v Hclean).
  now destruct v.
Qed.

(** ** The store *)

Section StoreFacts.
Context `{P : Platform}.
Variable this : SecureTokenStorage.

Lemma envelope_clean iv text :
  json_clean iv = true -> json_clean (envelope this iv text) = true.
Proof. intros H. simpl. now rewrite H. Qed.

Lemma encrypt_eq iv data text :
  JSON_stringify data = Some text ->
  encrypt this iv data = Ok (envelope this (VStr (hex iv)) text).
Proof. intros H. unfold encrypt. now rewrite H. Qed.

(** Saving on a disk that accepts the write. *)
Lemma saveTokens_written iv tokens text w :
  JSON_stringify tokens = Some text ->
  saveTokens this iv Written tokens w =
    (Ok true,
     {| file := Some (JSON_text (envelope this (VStr (hex iv)) text));
        codeVerifier := codeVerifier w;
        trace := trace w ++ [EvSave tokens] |}).
Proof.
  intros H. unfold saveTokens, bind, try_catch, lift, log.
  rewrite (encrypt_eq _ _ _ H). reflexivity.
Qed.

(** Saving never throws, never touches the verifier, and records the
    call. *)
Lemma saveTokens_total iv disk tokens w :
  exists done content,
    saveTokens this iv disk tokens w =
      (Ok done,
       {| file := content; codeVerifier := codeVerifier w;
          trace := trace w ++ [EvSave tokens] |}).
Proof.
  unfold saveTokens, bind, try_catch, lift, log, writeFileSync, ret.
  destruct (encrypt this iv tokens) as [e | x]; simpl; [ | eauto].
  destruct (JSON_stringify e); simpl; [ | unfold throw; eauto].
  destruct disk; simpl; unfold throw, set_file; simpl; eauto.
Qed.

(** A write that does not go through makes saving report failure. *)
Lemma saveTokens_refused iv disk tokens w :
  disk <> Written -> fst (saveTokens this iv disk tokens w) = Ok false.
Proof.
  intros Hdisk.
  unfold saveTokens, bind, try_catch, lift, log, writeFileSync, ret.
  destruct (encrypt this iv tokens) as [e | x]; simpl; [ | reflexivity].
  destruct (JSON_stringify e); [ | reflexivity].
  destruct disk as [ | | n]; [contradiction | reflexivity | reflexivity].
Qed.

(** [decrypt] does not read the [iv] property. *)
Lemma decrypt_envelope `{!PlatformLaws P} iv text v :
  JSON_parse text = Some v -> decrypt this (envelope this iv text) = v.
Proof.
  intros H. unfold decrypt, envelope. simpl.
  rewrite decipher_cipher. unfold JSON_parse_or_throw. now rewrite H.
Qed.

(** Loading changes nothing and never throws. *)
Lemma loadTokens_total w : exists v, loadTokens this w = (Ok v, w).
Proof.
  unfold loadTokens, try_catch, bind, get_world, lift, ret.
  destruct (file w) as [content | ]; [ | eauto].
  destruct (JSON_parse_or_throw content) as [e | x]; [ | eauto].
  destruct (truthy (decrypt this e)); eauto.
Qed.

Lemma loadTokens_envelope `{!PlatformLaws P} iv v w :
  json_clean iv = true -> json_clean v = true ->
  file w = Some (JSON_text (envelope this iv (JSON_text v))) ->
  loadTokens this w = (Ok (if truthy v then v else VNull), w).
Proof.
  intros Hiv Hv Hfile.
  unfold loadTokens, try_catch, bind, get_world, lift. rewrite Hfile.
  unfold JSON_parse_or_throw at 1.
  rewrite (JSON_parse_text _ (envelope_clean iv _ Hiv)).
  rewrite (decrypt_envelope iv _ v (JSON_parse_text v Hv)).
  now destruct (truthy v).
Qed.

End StoreFacts.

Section StoreClaims.
Context `{P : Platform}.
Variable this : SecureTokenStorage.

Lemma save_then_load `{!PlatformLaws P} iv r w :
  json_clean r = true -> truthy r = true ->
  exists w',
    saveTokens this iv Written r w = (Ok true, w') /\
    file w' = Some (JSON_text (envelope this (VStr (hex iv)) (JSON_text r))) /\
    loadTokens this w' = (Ok r, w').
Proof.
  intros Hclean Htrue.
  eexists. split; [ | split].
  - apply saveTokens_written, JSON_stringify_clean, Hclean.
  - reflexivity.
  - rewrite (loadTokens_envelope this (VStr (hex iv)) r); auto.
    now rewrite Htrue.
Qed.

Lemma well_formed_clean r : well_formed r -> json_clean r = true /\ truthy r = true.
Proof. intros (a & rt & e & _ & _ & ->). split; reflexivity. Qed.

(** C6.  Round trip of the store: for every well-formed credential record
    [r], [saveTokens(r)] succeeds on a disk that accepts the write, and
    whenever [saveTokens(r)] has returned [true] the [loadTokens()] that
    follows returns a record equal to [r]. *)
Theorem save_load_roundtrip `{!PlatformLaws P} iv r w :
  well_formed r ->
  (exists w', saveTokens this iv Written r w = (Ok true, w')) /\
  (forall disk w',
      saveTokens this iv disk r w = (Ok true, w') ->
      loadTokens this w' = (Ok r, w')).
Proof.
  intros Hwf. destruct (well_formed_clean r Hwf) as [Hclean Htrue].
  destruct (save_then_load iv r w Hclean Htrue) as (w1 & Hsave & _ & Hload).
  split; [eauto | ].
  intros disk w' Hsaved.
  destruct disk as [ | | n].
  - rewrite Hsave in Hsaved. inversion Hsaved; subst. exact Hload.
  - pose proof (saveTokens_refused this iv NotOpened r w) as Hno.
    rewrite Hsaved in Hno. now specialize (Hno ltac:(discriminate)).
  - pose proof (saveTokens_refused this iv (Torn n) r w) as Hno.
    rewrite Hsaved in Hno. now specialize (Hno ltac:(discriminate)).
Qed.

(** C7.  [loadTokens()] returns [null] when the token file does not exist,
    returns [null] when the file holds content that does not parse or does
    not decrypt, and on every content whatsoever returns a value without
    throwing and without changing the state. *)
Theorem load_absent_or_garbage :
  (forall w, file w = None -> loadTokens this w = (Ok VNull, w)) /\
  (forall w content,
      file w = Some content -> unreadable this content ->
      loadTokens this w = (Ok VNull, w)) /\
  (forall w, exists v, loadTokens this w = (Ok v, w)).
Proof.
  split; [ | split].
  - intros w Hfile.
    unfold loadTokens, try_catch, bind, get_world. now rewrite Hfile.
  - intros w content Hfile Hbad.
    unfold loadTokens, try_catch, bind, get_world, lift. rewrite Hfile.
    unfold unreadable in Hbad. unfold JSON_parse_or_throw at 1.
    destruct (JSON_parse content) as [e | ]; [ | reflexivity].
    replace (decrypt this e) with VNull; [reflexivity | ].
    unfold decrypt.
    destruct (get_prop e "encrypted") as [data | ]; [ | reflexivity].
    destruct (decipher_update_final this data) as [text | ]; [ | reflexivity].
    unfold JSON_parse_or_throw. now rewrite Hbad.
  - apply loadTokens_total.
Qed.

Lemma decrypt_ignores_iv iv iv' rest :
  decrypt this (VObj (("iv", iv) :: rest)) =
  decrypt this (VObj (("iv", iv') :: rest)).
Proof. reflexivity. Qed.

(** C10.  Decryption does not use the stored initialization vector: after a
    record [r] that JSON represents exactly has been saved, replacing the
    [iv] property of the stored envelope by any other JSON value, with the
    [encrypted] property left as it is, still makes [loadTokens()] return
    [r]. *)
Theorem load_ignores_stored_iv `{!PlatformLaws P} iv other r w :
  json_clean r = true -> truthy r = true -> json_clean other = true ->
  exists w',
    saveTokens this iv Written r w = (Ok true, w') /\
    file w' = Some (JSON_text (envelope this (VStr (hex iv)) (JSON_text r))) /\
    let tampered :=
      with_file (JSON_text (envelope this other (JSON_text r))) w' in
    loadTokens this tampered = (Ok r, tampered).
Proof.
  intros Hclean Htrue Hother.
  destruct (save_then_load iv r w Hclean Htrue) as (w' & Hsave & Hfile & _).
  exists w'. split; [exact Hsave | split; [exact Hfile | ]].
  simpl. rewrite (loadTokens_envelope this other r); auto.
  now rewrite Htrue.
Qed.

(** C4 (what the code does).  [encrypt] draws an initialization vector and
    returns it in the [iv] property, but the ciphertext is the same
    whatever vector was drawn: two encryptions of the same data under the
    same key give the same [encrypted] property. *)
Theorem ciphertext_independent_of_iv iv1 iv2 data :
  encrypted_field (encrypt this iv1 data) =
  encrypted_field (encrypt this iv2 data).
Proof.
  unfold encrypt. now destruct (JSON_stringify data).
Qed.

End StoreClaims.

(** ** The callback handler *)

Ltac run :=
  unfold bind, try_catch, lift, ret, throw, get_world, log,
    set_codeVerifier, axios_post, posted in *;
  simpl in *.

Ltac run_save :=
  match goal with
  | |- context [saveTokens ?s ?iv ?d ?r ?w] =>
      let saved := fresh "saved" in
      let content := fresh "content" in
      let Hsave := fresh "Hsave" in
      destruct (saveTokens_total s iv d r w) as (saved & content & Hsave);
      rewrite Hsave
  end.

Section ServerFacts.
Context `{P : Platform}.
Variable env : config.
Variable tokenStorage : SecureTokenStorage.

(** The handler, outcome by outcome. *)
Lemma auth_callback_spec code upstream now iv disk w :
  let call := auth_callback env tokenStorage code upstream now iv disk w in
  let w1 := posted (requestData env code (codeVerifier w)) w in
  if negb (truthy code) then call = (Ok MissingCode, w) else
  if negb (truthy (codeVerifier w)) then call = (Ok MissingVerifier, w) else
  match upstream with
  | Rejected => call = (Ok ExchangeFailed, w1)
  | Responded data =>
      match data with
      | VUndefined | VNull => call = (Ok ExchangeFailed, w1)
      | VObj props =>
          if truthy (assoc "error" props) then
            call = (Ok (UpstreamRejected (assoc "error" props)
                          (assoc "error_description" props)), w1)
          else if negb (truthy (assoc "access_token" props)) then
            call = (Ok UpstreamMalformed, w1)
          else
            exists content,
              call =
                (Ok LoginSuccessful,
                 {| file := content; codeVerifier := VNull;
                    trace := trace w1 ++
                      [EvSave (new_tokens (assoc "access_token" props)
                                 (assoc "refresh_token" props)
                                 (assoc "expires_in" props) now)] |})
      | _ => call = (Ok UpstreamMalformed, w1)
      end
  end.
Proof.
  unfold auth_callback.
  destruct (truthy code); simpl; [ | reflexivity].
  run.
  destruct (truthy (codeVerifier w)); simpl; [ | reflexivity].
  destruct upstream as [[ | | b | n | s | props] | ]; try reflexivity.
  simpl.
  destruct (truthy (assoc "error" props)); simpl; [reflexivity | ].
  destruct (truthy (assoc "access_token" props)); simpl; [ | reflexivity].
  run_save. simpl. eauto.
Qed.

Lemma get_prop_truthy v k : truthy v = true -> get_prop v k = Ok (prop v k).
Proof. unfold prop. now destruct v. Qed.

(** [getValidAccessToken], outcome by outcome, on a state in which the
    store holds [tokens]. *)
Lemma getValidAccessToken_spec now now' upstream iv disk w tokens :
  loadTokens tokenStorage w = (Ok tokens, w) ->
  let call :=
    getValidAccessToken env tokenStorage now now' upstream iv disk w in
  let w1 := posted (refreshData env (prop tokens "refresh_token")) w in
  if negb (truthy tokens) then call = (Throw NoTokensError, w) else
  if still_valid now (prop tokens "expires_at") then
    call = (Ok (prop tokens "access_token"), w)
  else
  match upstream with
  | Rejected => call = (Throw AxiosError, w1)
  | Responded data =>
      match data with
      | VUndefined | VNull => call = (Throw TypeError, w1)
      | _ =>
          call =
            (Ok (prop data "access_token"),
             snd (saveTokens tokenStorage iv disk
                    (new_tokens (prop data "access_token")
                       (prop data "refresh_token")
                       (prop data "expires_in") now') w1))
      end
  end.
Proof.
  intros Hload call w1. subst call w1.
  unfold getValidAccessToken, bind, lift. rewrite Hload. cbv beta iota.
  destruct (truthy tokens) eqn:Htokens; cbn [negb]; [ | reflexivity].
  rewrite !(get_prop_truthy tokens) by exact Htokens. cbv beta iota.
  fold (still_valid now (prop tokens "expires_at")).
  destruct (still_valid now (prop tokens "expires_at")); [reflexivity | ].
  destruct upstream as [[ | | b | n | s | props] | ]; try reflexivity;
    unfold axios_post, bind, log, ret; cbn [get_prop prop];
    cbv beta iota; fold (posted (refreshData env (prop tokens "refresh_token")) w);
    run_save; reflexivity.
Qed.

End ServerFacts.

(** ** Histories and verifiers *)

Lemma posts_app t1 t2 : posts (t1 ++ t2) = (posts t1 + posts t2)%nat.
Proof.
  induction t1 as [ | [body | r] t1 IH]; simpl; rewrite ?IH; reflexivity.
Qed.

Lemma saves_app t1 t2 : saves (t1 ++ t2) = (saves t1 ++ saves t2)%list.
Proof.
  induction t1 as [ | [body | r] t1 IH]; simpl; rewrite ?IH; reflexivity.
Qed.

Lemma length_append s t :
  String.length (s +:+ t) = (String.length s + String.length t)%nat.
Proof. induction s as [ | c s IH]; simpl; [ | rewrite IH]; reflexivity. Qed.

Lemma charAt_length s i :
  (i < String.length s)%nat -> String.length (charAt s i) = 1%nat.
Proof.
  unfold charAt. revert i.
  induction s as [ | c s IH]; intros i Hi; simpl in Hi; [lia | ].
  destruct i as [ | i]; simpl; [reflexivity | ].
  apply IH. lia.
Qed.

Lemma random_loop_length draw n i result :
  in_range draw ->
  String.length (random_loop n i draw result) = (String.length result + n)%nat.
Proof.
  intros Hdraw. revert i result.
  induction n as [ | n IH]; intros i result; simpl; [lia | ].
  rewrite IH, length_append, (charAt_length _ _ (Hdraw i)). lia.
Qed.

Lemma generateRandomString_length draw n :
  in_range draw -> String.length (generateRandomString n draw) = n.
Proof.
  intros Hdraw. unfold generateRandomString.
  now rewrite random_loop_length.
Qed.

Lemma verifier_truthy draw :
  in_range draw -> truthy (VStr (generateRandomString 64 draw)) = true.
Proof.
  intros Hdraw. unfold truthy.
  pose proof (generateRandomString_length draw 64 Hdraw) as Hlen.
  destruct (generateRandomString 64 draw); [discriminate Hlen | reflexivity].
Qed.

Section ServerClaims.
Context `{P : Platform}.
Variable env : config.
Variable tokenStorage : SecureTokenStorage.

Lemma auth_login_world draw w :
  snd (auth_login env draw w) =
    {| file := file w; codeVerifier := VStr (generateRandomString 64 draw);
       trace := trace w |}.
Proof. reflexivity. Qed.

Lemma logins_keep draws w :
  file (logins env draws w) = file w /\
  trace (logins env draws w) = trace w.
Proof.
  revert w. induction draws as [ | d draws IH]; intros w; [now split | ].
  change (logins env (d :: draws) w)
    with (logins env draws (snd (auth_login env d w))).
  destruct (IH (snd (auth_login env d w))) as [Hf Ht].
  now rewrite Hf, Ht.
Qed.

Lemma logins_last draws draw w :
  logins env (draws ++ [draw]) w = snd (auth_login env draw w).
Proof.
  unfold logins. rewrite fold_left_app. cbn [fold_left].
  fold (logins env draws w). rewrite !auth_login_world.
  destruct (logins_keep draws w) as [-> ->]. reflexivity.
Qed.

(** C8.  The callback handler answers [Missing code] when the code is
    empty and [No code verifier found] when no verifier is outstanding, the
    two answers differ, and after a call that succeeded a second call with
    the same code is answered [No code verifier found]. *)
Theorem callback_preconditions code upstream now iv disk w :
  (truthy code = false ->
   auth_callback env tokenStorage code upstream now iv disk w
     = (Ok MissingCode, w)) /\
  (truthy code = true -> truthy (codeVerifier w) = false ->
   auth_callback env tokenStorage code upstream now iv disk w
     = (Ok MissingVerifier, w)) /\
  MissingCode <> MissingVerifier /\
  (forall w1,
      auth_callback env tokenStorage code upstream now iv disk w
        = (Ok LoginSuccessful, w1) ->
      forall upstream2 now2 iv2 disk2,
        auth_callback env tokenStorage code upstream2 now2 iv2 disk2 w1
          = (Ok MissingVerifier, w1)).
Proof.
  pose proof (auth_callback_spec env tokenStorage code upstream now iv
                disk w) as Hspec.
  cbv zeta in Hspec.
  repeat split.
  - intros Hcode. now rewrite Hcode in Hspec.
  - intros Hcode Hver. now rewrite Hcode, Hver in Hspec.
  - discriminate.
  - intros w1 Hcall upstream2 now2 iv2 disk2.
    destruct (truthy code) eqn:Hcode; simpl in Hspec;
      [ | rewrite Hspec in Hcall; discriminate].
    assert (Hcleared : codeVerifier w1 = VNull).
    { destruct (truthy (codeVerifier w)); simpl in Hspec;
        [ | rewrite Hspec in Hcall; discriminate].
      destruct upstream as [[ | | b | n | s | props] | ];
        try (rewrite Hspec in Hcall; discriminate).
      destruct (truthy (assoc "error" props));
        [rewrite Hspec in Hcall; discriminate | ].
      destruct (truthy (assoc "access_token" props)); simpl in Hspec;
        [ | rewrite Hspec in Hcall; discriminate].
      destruct Hspec as [content Hspec]. rewrite Hspec in Hcall.
      now inversion Hcall. }
    pose proof (auth_callback_spec env tokenStorage code upstream2 now2 iv2
                  disk2 w1) as Hsecond.
    cbv zeta in Hsecond. now rewrite Hcode, Hcleared in Hsecond.
Qed.

(** C3 (amended).  A call of the callback handler with a non-empty code and
    an outstanding verifier always answers; it clears the verifier exactly
    when the token exchange succeeds, whether or not the record could then
    be written; when the exchange is rejected, malformed or fails, the
    verifier is left as it was. *)
Theorem verifier_cleared_on_success code upstream now iv disk w :
  truthy code = true -> truthy (codeVerifier w) = true ->
  exists reply w',
    auth_callback env tokenStorage code upstream now iv disk w
      = (Ok reply, w') /\
    (exchange_succeeds upstream = true ->
     reply = LoginSuccessful /\ codeVerifier w' = VNull) /\
    (exchange_succeeds upstream = false ->
     reply <> LoginSuccessful /\ codeVerifier w' = codeVerifier w).
Proof.
  intros Hcode Hver.
  pose proof (auth_callback_spec env tokenStorage code upstream now iv
                disk w) as Hspec.
  cbv zeta in Hspec. rewrite Hcode, Hver in Hspec. simpl in Hspec.
  destruct upstream as [[ | | b | n | s | props] | ]; simpl;
    try (do 2 eexists; split; [exact Hspec | ];
         split; [discriminate | intros _; split; [discriminate | reflexivity]]).
  destruct (truthy (assoc "error" props)); simpl.
  { do 2 eexists. split; [exact Hspec | ].
    split; [discriminate | intros _; split; [discriminate | reflexivity]]. }
  destruct (truthy (assoc "access_token" props)); simpl in *.
  - destruct Hspec as [content Hspec].
    do 2 eexists. split; [exact Hspec | ].
    split; [intros _; split; reflexivity | discriminate].
  - do 2 eexists. split; [exact Hspec | ].
    split; [discriminate | intros _; split; [discriminate | reflexivity]].
Qed.

(** C2 (amended).  A call of the callback handler passes at most one record
    to [saveTokens]; that record has the properties [access_token],
    [refresh_token] and [expires_at], and its [access_token] is non-empty.
    The other two are stored as the token response gave them. *)
Theorem callback_saves_access_token code upstream now iv disk w :
  let w' := snd (auth_callback env tokenStorage code upstream now iv disk w) in
  saves (trace w') = saves (trace w) \/
  exists access_token refresh_token expires_in,
    truthy access_token = true /\
    saves (trace w') =
      (saves (trace w) ++
         [VObj [("access_token", access_token);
                ("refresh_token", refresh_token);
                ("expires_at", expiry now expires_in)]])%list.
Proof.
  pose proof (auth_callback_spec env tokenStorage code upstream now iv
                disk w) as Hspec.
  cbv zeta in *.
  assert (Hposted : forall body, saves (trace (posted body w)) = saves (trace w)).
  { intros body. simpl. rewrite saves_app. simpl. apply app_nil_r. }
  destruct (truthy code); simpl in Hspec; [ | rewrite Hspec; now left].
  destruct (truthy (codeVerifier w)); simpl in Hspec;
    [ | rewrite Hspec; now left].
  destruct upstream as [[ | | b | n | s | props] | ];
    try (rewrite Hspec; left; apply Hposted).
  destruct (truthy (assoc "error" props));
    [rewrite Hspec; left; apply Hposted | ].
  destruct (truthy (assoc "access_token" props)) eqn:Htoken; simpl in Hspec;
    [ | rewrite Hspec; left; apply Hposted].
  destruct Hspec as [content ->]. right.
  exists (assoc "access_token" props), (assoc "refresh_token" props),
    (assoc "expires_in" props).
  split; [exact Htoken | ].
  cbn [snd trace]. rewrite !saves_app. simpl. now rewrite app_nil_r.
Qed.

Lemma requestData_carries code code_verifier :
  carries (requestData env code code_verifier) "code_verifier" code_verifier /\
  carries (requestData env code code_verifier) "code" code.
Proof.
  unfold carries, requestData. cbn [In].
  repeat split; auto 8;
    intros v' [H | [H | [H | [H | [H | [H | []]]]]]]; now inversion H.
Qed.

(** C9.  There is one verifier slot: after any sequence of login requests
    the state is the one the last request alone would have produced, the
    slot holds the verifier drawn by that last request, and a following
    callback sends exactly one token request, whose [code_verifier] is
    that verifier and no other. *)
Theorem latest_verifier_wins draws draw code upstream now iv disk w :
  in_range draw -> truthy code = true ->
  let w1 := logins env (draws ++ [draw]) w in
  let verifier := VStr (generateRandomString 64 draw) in
  w1 = snd (auth_login env draw w) /\
  codeVerifier w1 = verifier /\
  exists body rest,
    trace (snd (auth_callback env tokenStorage code upstream now iv disk w1))
      = (trace w ++ EvPost body :: rest)%list /\
    body = requestData env code verifier /\
    carries body "code_verifier" verifier /\
    carries body "code" code /\
    posts rest = 0%nat.
Proof.
  intros Hdraw Hcode w1 verifier.
  assert (Hw1 : w1 = snd (auth_login env draw w)) by apply logins_last.
  assert (Hver : codeVerifier w1 = verifier) by now rewrite Hw1.
  assert (Htrace : trace w1 = trace w) by now rewrite Hw1.
  split; [exact Hw1 | split; [exact Hver | ]].
  exists (requestData env code verifier).
  destruct (requestData_carries code verifier) as [Hverifier Hcarried].
  assert (Hsent : exists rest,
    trace (snd (auth_callback env tokenStorage code upstream now iv disk w1))
      = (trace w ++ EvPost (requestData env code verifier) :: rest)%list /\
    posts rest = 0%nat).
  { pose proof (auth_callback_spec env tokenStorage code upstream now iv
                  disk w1) as Hspec.
    cbv zeta in Hspec. rewrite Hcode, Hver in Hspec.
    unfold verifier in Hspec at 1.
    rewrite (verifier_truthy draw Hdraw) in Hspec.
    simpl in Hspec.
    destruct upstream as [[ | | b | n | s | props] | ];
      try (rewrite Hspec; simpl; rewrite Htrace; now exists []).
    destruct (truthy (assoc "error" props));
      [rewrite Hspec; simpl; rewrite Htrace; now exists [] | ].
    destruct (truthy (assoc "access_token" props)); simpl in Hspec;
      [ | rewrite Hspec; simpl; rewrite Htrace; now exists []].
    destruct Hspec as [content ->]. simpl.
    rewrite Htrace, <- app_assoc. simpl. eexists. split; reflexivity. }
  destruct Hsent as (rest & Hrest & Hnone).
  exists rest. repeat split; auto; apply Hverifier || apply Hcarried.
Qed.

(** C5 (amended).  With a stored record whose [expires_at] is the number
    [e], [getValidAccessToken] returns the stored [access_token] without
    any request when [now < e - 60000]; otherwise it sends exactly one
    refresh request.  A record with [e = now + 5000] is inside the margin:
    the call made immediately sends one refresh request. *)
Theorem refresh_margin now now' upstream iv disk w tokens e :
  loadTokens tokenStorage w = (Ok tokens, w) ->
  truthy tokens = true ->
  prop tokens "expires_at" = VNum (Finite e) ->
  let call :=
    getValidAccessToken env tokenStorage now now' upstream iv disk w in
  (now < e - 60000 -> call = (Ok (prop tokens "access_token"), w)) /\
  (e - 60000 <= now -> posts (trace (snd call)) = S (posts (trace w))) /\
  (e = now + 5000 -> posts (trace (snd call)) = S (posts (trace w))).
Proof.
  intros Hload Htokens Hexp call.
  pose proof (getValidAccessToken_spec env tokenStorage now now' upstream iv
                disk w tokens Hload) as Hspec.
  cbv zeta in Hspec. fold call in Hspec.
  rewrite Htokens, Hexp in Hspec. cbn [negb] in Hspec.
  unfold still_valid in Hspec. cbn [to_number num_sub num_lt] in Hspec.
  change (60 * 1000) with 60000 in Hspec.
  assert (Hstale : e - 60000 <= now -> posts (trace (snd call)) = S (posts (trace w))).
  { intros Hle.
    destruct (Z.ltb_spec now (e - 60000)) as [Hlt | _]; [lia | ].
    assert (Hposted : forall body,
               posts (trace (posted body w)) = S (posts (trace w))).
    { intros body. simpl. rewrite posts_app. simpl. lia. }
    destruct upstream as [[ | | b | n | s | props] | ];
      try (rewrite Hspec; apply Hposted);
      rewrite Hspec; cbn [snd];
      match goal with
      | |- context [saveTokens ?s ?i ?d ?r ?w0] =>
          destruct (saveTokens_total s i d r w0) as (done & content & ->)
      end;
      cbn [snd trace]; rewrite posts_app, Hposted; simpl; lia. }
  split; [ | split].
  - intros Hlt.
    destruct (Z.ltb_spec now (e - 60000)) as [_ | Hge]; [exact Hspec | lia].
  - exact Hstale.
  - intros ->. apply Hstale. lia.
Qed.

(** C1 (what the code does).  On a stale record, a refresh response that
    carries an [error] field and none of the token fields is not treated as
    a failure: [getValidAccessToken] returns [undefined], passes a record
    without tokens to [saveTokens], and the store then holds
    [{"expires_at": null}] in place of the previous record. *)
Theorem refresh_error_overwrites_store `{!PlatformLaws P}
    now now' iv w tokens error description :
  loadTokens tokenStorage w = (Ok tokens, w) ->
  truthy tokens = true ->
  still_valid now (prop tokens "expires_at") = false ->
  exists w',
    getValidAccessToken env tokenStorage now now'
      (Responded (VObj [("error", error);
                        ("error_description", description)])) iv Written w
      = (Ok VUndefined, w') /\
    saves (trace w') =
      (saves (trace w) ++
         [VObj [("access_token", VUndefined); ("refresh_token", VUndefined);
                ("expires_at", VNum NaN)]])%list /\
    loadTokens tokenStorage w' = (Ok (VObj [("expires_at", VNull)]), w').
Proof.
  intros Hload Htokens Hstale.
  pose proof (getValidAccessToken_spec env tokenStorage now now'
                (Responded (VObj [("error", error);
                                  ("error_description", description)]))
                iv Written w tokens Hload) as Hspec.
  cbv zeta in Hspec. rewrite Htokens, Hstale in Hspec.
  cbn [negb prop get_prop assoc String.eqb Ascii.eqb Bool.eqb] in Hspec.
  rewrite (saveTokens_written tokenStorage iv _
             (JSON_text (VObj [("expires_at", VNull)]))) in Hspec
    by reflexivity.
  eexists. split; [exact Hspec | split].
  - cbn [snd trace posted]. rewrite !saves_app. simpl.
    now rewrite app_nil_r.
  - now rewrite (loadTokens_envelope tokenStorage (VStr (hex iv))
                   (VObj [("expires_at", VNull)])).
Qed.

End ServerClaims.

(** * Further properties *)

(** ** The store: saving, clearing, validity *)



Lemma hex_length bytes : String.length (hex bytes) = (2 * length bytes)%nat.
Proof.
  induction bytes as [ | b bytes IH]; [reflexivity | ].
  cbn [hex String.length length]. rewrite IH. lia.
Qed.

Section StoreMore.
Context `{P : Platform}.
Variable this : SecureTokenStorage.

(** What [loadTokens] returns depends on the token file only. *)
Lemma loadTokens_file w1 w2 :
  file w1 = file w2 -> fst (loadTokens this w1) = fst (loadTokens this w2).
Proof.
  intros Hfile.
  unfold loadTokens, try_catch, bind, get_world, lift, ret.
  rewrite Hfile.
  destruct (file w2) as [content | ]; [ | reflexivity].
  destruct (JSON_parse_or_throw content) as [e | x]; [ | reflexivity].
  now destruct (truthy (decrypt this e)).
Qed.

Lemma loadTokens_same w1 w2 v :
  file w1 = file w2 -> loadTokens this w2 = (Ok v, w2) ->
  loadTokens this w1 = (Ok v, w1).
Proof.
  intros Hfile Hload.
  destruct (loadTokens_total this w1) as [v1 Hv1].
  pose proof (loadTokens_file w1 w2 Hfile) as Hfst.
  rewrite Hv1, Hload in Hfst. simpl in Hfst. now rewrite Hv1, Hfst.
Qed.

Lemma loadTokens_absent w : file w = None -> loadTokens this w = (Ok VNull, w).
Proof.
  intros Hfile.
  unfold loadTokens, try_catch, bind, get_world. now rewrite Hfile.
Qed.


Lemma refused_write_keeps_file iv tokens w :
  fst (saveTokens this iv NotOpened tokens w) = Ok false /\
  file (snd (saveTokens this iv NotOpened tokens w)) = file w.
Proof.
  unfold saveTokens, bind, try_catch, lift, log, writeFileSync, ret, throw.
  destruct (encrypt this iv tokens) as [e | x]; simpl; [ | now split].
  destruct (JSON_stringify e); now split.
Qed.

Lemma torn_write_file iv n tokens text w :
  JSON_stringify tokens = Some text ->
  file (snd (saveTokens this iv (Torn n) tokens w)) =
    Some (String.substring 0 n
            (JSON_text (envelope this (VStr (hex iv)) text))).
Proof.
  intros Htext.
  unfold saveTokens, bind, try_catch, lift, log, writeFileSync, ret, throw.
  now rewrite (encrypt_eq this iv tokens text Htext).
Qed.

(** X2.  A save that does not go through returns [false] without throwing.
    When the value is [undefined] no write is attempted, and when the file
    cannot be opened it is left alone: in both cases the token file, and
    so what [loadTokens()] returns, is as it was.  When the write fails
    after the file was opened, the previous content is lost: the file
    holds only the first characters of the new text. *)
Theorem failed_save_returns_false iv disk tokens w :
  disk <> Written \/ tokens = VUndefined ->
  let out := saveTokens this iv disk tokens w in
  fst out = Ok false /\
  (disk = NotOpened \/ tokens = VUndefined ->
   file (snd out) = file w /\
   fst (loadTokens this (snd out)) = fst (loadTokens this w)) /\
  (forall n text,
      disk = Torn n -> JSON_stringify tokens = Some text ->
      file (snd out) =
        Some (String.substring 0 n
                (JSON_text (envelope this (VStr (hex iv)) text)))).
Proof.
  intros Hcase out.
  destruct (JSON_stringify tokens) as [text | ] eqn:Htext.
  - assert (Hdisk : disk <> Written).
    { destruct Hcase as [Hdisk | ->]; [exact Hdisk | discriminate Htext]. }
    split; [apply saveTokens_refused, Hdisk | split].
    + intros [-> | ->]; [ | discriminate Htext].
      destruct (refused_write_keeps_file iv tokens w) as [_ Hfile].
      split; [exact Hfile | now apply loadTokens_file].
    + intros n text' -> Htext'. inversion Htext'; subst text'.
      now apply torn_write_file.
  - assert (Hout : out = (Ok false,
                          {| file := file w; codeVerifier := codeVerifier w;
                             trace := trace w ++ [EvSave tokens] |})).
    { unfold out, saveTokens, bind, try_catch, lift, log, ret, encrypt.
      now rewrite Htext. }
    rewrite Hout. split; [reflexivity | split].
    + intros _. split; [reflexivity | now apply loadTokens_file].
    + intros n text' _ Htext'. discriminate Htext'.
Qed.

(** X3.  Clearing a store whose file can be removed returns [true] and leaves
    no file: [loadTokens()] then returns [null], and clearing again is
    still answered [true]. *)
Theorem clear_then_absent w :
  exists w',
    clearTokens true w = (Ok true, w') /\
    file w' = None /\
    codeVerifier w' = codeVerifier w /\
    trace w' = trace w /\
    loadTokens this w' = (Ok VNull, w') /\
    clearTokens true w' = (Ok true, w').
Proof.
  unfold clearTokens, try_catch, bind, get_world, unlinkSync, remove_file, ret.
  destruct w as [[content | ] verifier history]; simpl.
  - eexists. repeat split.
  - eexists. repeat split.
Qed.

(** X4.  When the file cannot be removed, [clearTokens()] returns [false]
    without throwing and the state is unchanged; when there is no file it
    returns [true] whatever the disk does. *)
Theorem clear_refused w :
  (forall content,
      file w = Some content -> clearTokens false w = (Ok false, w)) /\
  (file w = None -> forall removable, clearTokens removable w = (Ok true, w)).
Proof.
  unfold clearTokens, try_catch, bind, get_world, unlinkSync, ret, throw.
  split.
  - intros content Hfile. now rewrite Hfile.
  - intros Hfile removable. now rewrite Hfile.
Qed.

(** What a positive answer of [hasValidTokens()] says about the record. *)
Lemma hasValidTokens_true now w w' :
  hasValidTokens this now w = (Ok true, w') ->
  exists tokens n,
    w' = w /\
    loadTokens this w = (Ok tokens, w) /\
    truthy tokens = true /\
    truthy (prop tokens "access_token") = true /\
    to_number (prop tokens "expires_at") = Finite n /\
    now < n - 300000.
Proof.
  unfold hasValidTokens, bind, lift, ret.
  destruct (loadTokens_total this w) as [tokens Hload]. rewrite Hload.
  destruct (truthy tokens) eqn:Htokens; simpl; [ | discriminate].
  rewrite !(get_prop_truthy tokens) by exact Htokens.
  destruct (truthy (prop tokens "access_token")) eqn:Haccess; simpl;
    [ | discriminate].
  intros Hvalid. exists tokens.
  destruct (to_number (prop tokens "expires_at")) as [n | ] eqn:Hn;
    simpl in Hvalid; [ | discriminate].
  exists n. injection Hvalid as Hlt Hw. subst w'.
  apply Z.ltb_lt in Hlt.
  split; [reflexivity | split; [reflexivity | split; [exact Htokens | ]]].
  split; [exact Haccess | split; [reflexivity | lia]].
Qed.

(** X5.  On a store that holds the record [(a, r, e)] with a non-empty access
    token, [hasValidTokens()] answers whether [now < e - 300000] (five
    minutes before expiry); on a store without file it answers [false]. *)
Theorem hasValidTokens_margin `{!PlatformLaws P} iv a r e now w :
  a <> "" ->
  (exists w',
      saveTokens this iv Written (CredentialRecord a r e) w = (Ok true, w') /\
      hasValidTokens this now w' = (Ok (now <? e - 300000), w')) /\
  (file w = None -> hasValidTokens this now w = (Ok false, w)).
Proof.
  intros Ha. split.
  - destruct (save_then_load this iv (CredentialRecord a r e) w)
      as (w' & Hsave & _ & Hload); try reflexivity.
    exists w'. split; [exact Hsave | ].
    unfold hasValidTokens, bind, lift, ret. rewrite Hload. simpl.
    destruct (String.eqb_spec a ""); [contradiction | reflexivity].
  - intros Hfile. unfold hasValidTokens, bind.
    now rewrite (loadTokens_absent w Hfile).
Qed.

(** X6.  When no key is configured ([ENCRYPTION_KEY] unset or empty), the
    constructor takes the key [generateEncryptionKey()] draws: with its 32
    random bytes that key has 64 characters, so it is used as it is and
    never passed through scrypt. *)
Theorem generated_key_used_as_is random :
  length random = 32%nat ->
  let key := generateEncryptionKey random in
  String.length key = 64%nat /\
  encryptionKey (new_SecureTokenStorage None random) = key /\
  encryptionKey (new_SecureTokenStorage (Some "") random) = key.
Proof.
  intros Hlen key.
  assert (Hkey : String.length key = 64%nat).
  { unfold key, generateEncryptionKey. rewrite hex_length, Hlen. reflexivity. }
  split; [exact Hkey | ].
  unfold new_SecureTokenStorage. cbn [String.eqb encryptionKey].
  fold (generateEncryptionKey random). fold key. now rewrite Hkey.
Qed.

(** X7.  A record saved by a store built from a configured key is read back by
    any store built from the same key, whatever random bytes each
    constructor drew: with [ENCRYPTION_KEY] set, the record survives a
    restart. *)
Theorem configured_key_survives_restart `{!PlatformLaws P}
    key random1 random2 iv r w :
  key <> "" -> well_formed r ->
  let before := new_SecureTokenStorage (Some key) random1 in
  let after := new_SecureTokenStorage (Some key) random2 in
  exists w',
    saveTokens before iv Written r w = (Ok true, w') /\
    loadTokens after w' = (Ok r, w').
Proof.
  intros Hkey Hwf before after.
  assert (Hsame : after = before).
  { unfold after, before, new_SecureTokenStorage.
    now destruct (String.eqb_spec key ""). }
  rewrite Hsame.
  destruct (well_formed_clean r Hwf) as [Hclean Htrue].
  destruct (save_then_load before iv r w Hclean Htrue)
    as (w' & Hsave & _ & Hload).
  eauto.
Qed.

End StoreMore.

(** ** The lifecycle: retrieval, refresh, authorization *)

Lemma all_in_append alphabet s t :
  all_in alphabet s -> all_in alphabet t -> all_in alphabet (s +:+ t).
Proof.
  intros Hs Ht. induction s as [ | c s IH]; simpl in *; [exact Ht | ].
  destruct Hs as [Hc Hs]. split; [exact Hc | now apply IH].
Qed.

Lemma all_in_charAt s i : all_in s (charAt s i).
Proof.
  unfold charAt. destruct (String.get i s) as [c | ] eqn:Hget; simpl; eauto.
Qed.

Lemma charAt_length_le s i : (String.length (charAt s i) <= 1)%nat.
Proof. unfold charAt. destruct (String.get i s); simpl; lia. Qed.

Lemma random_loop_facts draw n i result :
  all_in characters result ->
  all_in characters (random_loop n i draw result) /\
  (String.length (random_loop n i draw result) <= String.length result + n)%nat.
Proof.
  revert i result. induction n as [ | n IH]; intros i result Hres; simpl.
  - split; [exact Hres | lia].
  - destruct (IH (Datatypes.S i) (result +:+ charAt characters (draw i)))
      as [Hall Hlen].
    { apply all_in_append; [exact Hres | apply all_in_charAt]. }
    split; [exact Hall | ].
    rewrite length_append in Hlen.
    pose proof (charAt_length_le characters (draw i)). lia.
Qed.

(** X8.  [generateRandomString(length)] only ever produces characters of its
    alphabet and never more than [length] of them; when every draw is an
    index into the alphabet, as [Math.floor(Math.random() * 66)] is, it
    produces exactly [length] characters. *)
Theorem generateRandomString_alphabet draw n :
  all_in characters (generateRandomString n draw) /\
  (String.length (generateRandomString n draw) <= n)%nat /\
  (in_range draw -> String.length (generateRandomString n draw) = n).
Proof.
  destruct (random_loop_facts draw n 0 "" I) as [Hall Hlen].
  split; [exact Hall | split; [exact Hlen | ]].
  apply generateRandomString_length.
Qed.

Section LifecycleMore.
Context `{P : Platform}.
Variable env : config.
Variable tokenStorage : SecureTokenStorage.

Lemma loadTokens_unreadable w content :
  file w = Some content -> unreadable tokenStorage content ->
  loadTokens tokenStorage w = (Ok VNull, w).
Proof.
  intros Hfile Hbad.
  unfold loadTokens, try_catch, bind, get_world, lift. rewrite Hfile.
  unfold unreadable in Hbad. unfold JSON_parse_or_throw at 1.
  destruct (JSON_parse content) as [e | ]; [ | reflexivity].
  replace (decrypt tokenStorage e) with VNull; [reflexivity | ].
  unfold decrypt.
  destruct (get_prop e "encrypted") as [data | ]; [ | reflexivity].
  destruct (decipher_update_final tokenStorage data) as [text | ];
    [ | reflexivity].
  unfold JSON_parse_or_throw. now rewrite Hbad.
Qed.

Lemma getValidAccessToken_none now now' upstream iv disk w :
  loadTokens tokenStorage w = (Ok VNull, w) ->
  getValidAccessToken env tokenStorage now now' upstream iv disk w
    = (Throw NoTokensError, w).
Proof.
  intros Hload.
  exact (getValidAccessToken_spec env tokenStorage now now' upstream iv
           disk w VNull Hload).
Qed.

Lemma getValidAccessToken_cached now now' upstream iv disk w tokens n :
  loadTokens tokenStorage w = (Ok tokens, w) ->
  truthy tokens = true ->
  to_number (prop tokens "expires_at") = Finite n ->
  now < n - 60000 ->
  getValidAccessToken env tokenStorage now now' upstream iv disk w
    = (Ok (prop tokens "access_token"), w).
Proof.
  intros Hload Htokens Hn Hlt.
  pose proof (getValidAccessToken_spec env tokenStorage now now' upstream iv
                disk w tokens Hload) as Hspec.
  cbv zeta in Hspec. rewrite Htokens in Hspec. cbn [negb] in Hspec.
  unfold still_valid in Hspec. rewrite Hn in Hspec.
  cbn [num_sub num_lt] in Hspec. change (60 * 1000) with 60000 in Hspec.
  now destruct (Z.ltb_spec now (n - 60000)) as [_ | Hge]; [ | lia].
Qed.

(** X10.  Without credentials there is no request: when the token file does not
    exist, or holds content that fails to parse or to decrypt,
    [getValidAccessToken()] throws its "No tokens available" error, sends
    nothing and changes nothing. *)
Theorem no_credentials_no_request now now' upstream iv disk w :
  file w = None \/
  (exists content, file w = Some content /\ unreadable tokenStorage content) ->
  getValidAccessToken env tokenStorage now now' upstream iv disk w
    = (Throw NoTokensError, w).
Proof.
  intros [Hfile | (content & Hfile & Hbad)];
    apply getValidAccessToken_none.
  - now apply loadTokens_absent.
  - now apply (loadTokens_unreadable w content).
Qed.

(** X11.  A positive [hasValidTokens()] is a promise about
    [getValidAccessToken()]: the check changes nothing, the stored record
    has a non-empty access token, and for the next four minutes (the
    five-minute buffer less the sixty-second margin)
    [getValidAccessToken()] returns exactly that stored access token,
    without any request and without changing the state. *)
Theorem hasValidTokens_then_cached now w w' now2 now3 upstream iv disk :
  hasValidTokens tokenStorage now w = (Ok true, w') ->
  now2 <= now + 240000 ->
  exists tokens,
    w' = w /\
    loadTokens tokenStorage w = (Ok tokens, w) /\
    truthy (prop tokens "access_token") = true /\
    getValidAccessToken env tokenStorage now2 now3 upstream iv disk w
      = (Ok (prop tokens "access_token"), w).
Proof.
  intros Hvalid Hsoon.
  destruct (hasValidTokens_true tokenStorage now w w' Hvalid)
    as (tokens & n & Hw & Hload & Htokens & Haccess & Hn & Hlt).
  exists tokens.
  split; [exact Hw | split; [exact Hload | split; [exact Haccess | ]]].
  apply (getValidAccessToken_cached _ _ _ _ _ _ tokens n); auto. lia.
Qed.



(** X13.  A refresh that brings nothing back leaves the record in place.  On a
    stale record, when the refresh request is rejected or its body is
    [null] or [undefined], [getValidAccessToken()] throws after that one
    request, nothing is passed to [saveTokens], and the store still holds
    the stale record. *)
Theorem failed_refresh_keeps_store now now' upstream iv disk w tokens :
  loadTokens tokenStorage w = (Ok tokens, w) ->
  truthy tokens = true ->
  still_valid now (prop tokens "expires_at") = false ->
  without_body upstream = true ->
  exists e w',
    getValidAccessToken env tokenStorage now now' upstream iv disk w
      = (Throw e, w') /\
    trace w' =
      (trace w ++ [EvPost (refreshData env (prop tokens "refresh_token"))])%list /\
    file w' = file w /\
    loadTokens tokenStorage w' = (Ok tokens, w').
Proof.
  intros Hload Htokens Hstale Hnone.
  pose proof (getValidAccessToken_spec env tokenStorage now now' upstream iv
                disk w tokens Hload) as Hspec.
  cbv zeta in Hspec. rewrite Htokens, Hstale in Hspec. cbn [negb] in Hspec.
  destruct upstream as [[ | | b | n | s | props] | ]; try discriminate;
    do 2 eexists; (split; [exact Hspec | ]);
    (split; [reflexivity | split; [reflexivity | ]]);
    now apply (loadTokens_same tokenStorage _ w).
Qed.

(** X14.  The verifier is out of reach of token retrieval: whatever
    [getValidAccessToken()] does, it returns with [codeVerifier] as it
    found it, so an authorization in progress survives any number of
    relayed calls. *)
Theorem getValidAccessToken_keeps_verifier now now' upstream iv disk w :
  codeVerifier
    (snd (getValidAccessToken env tokenStorage now now' upstream iv disk w))
    = codeVerifier w.
Proof.
  destruct (loadTokens_total tokenStorage w) as [tokens Hload].
  pose proof (getValidAccessToken_spec env tokenStorage now now' upstream iv
                disk w tokens Hload) as Hspec.
  cbv zeta in Hspec.
  destruct (truthy tokens); cbn [negb] in Hspec; [ | now rewrite Hspec].
  destruct (still_valid now (prop tokens "expires_at"));
    [now rewrite Hspec | ].
  destruct upstream as [[ | | b | n | s | props] | ];
    try (now rewrite Hspec);
    rewrite Hspec; cbn [snd];
    match goal with
    | |- context [saveTokens ?s ?i ?d ?r ?w0] =>
        destruct (saveTokens_total s i d r w0) as (done & content & ->)
    end; reflexivity.
Qed.

(** The callback handler on a token response it accepts, traced to the
    state it leaves. *)
Lemma auth_callback_accepted code props now iv disk w :
  truthy code = true -> truthy (codeVerifier w) = true ->
  truthy (assoc "error" props) = false ->
  truthy (assoc "access_token" props) = true ->
  auth_callback env tokenStorage code (Responded (VObj props)) now iv
    disk w =
  (Ok LoginSuccessful,
   cleared
     (snd (saveTokens tokenStorage iv disk
             (new_tokens (assoc "access_token" props)
                (assoc "refresh_token" props) (assoc "expires_in" props) now)
             (posted (requestData env code (codeVerifier w)) w)))).
Proof.
  intros Hcode Hver Herror Haccess.
  unfold auth_callback, cleared. rewrite Hcode. simpl. run.
  rewrite Hver. simpl. rewrite Herror. simpl. rewrite Haccess. simpl.
  run_save. reflexivity.
Qed.


(** X16.  A callback that does not end in the success page never touches the
    stored credentials: the handler always answers, and unless the answer
    is the success page the token file is as before and nothing was
    passed to [saveTokens]. *)
Theorem failed_callback_keeps_store code upstream now iv disk w :
  exists reply w',
    auth_callback env tokenStorage code upstream now iv disk w
      = (Ok reply, w') /\
    (reply <> LoginSuccessful ->
     file w' = file w /\ saves (trace w') = saves (trace w)).
Proof.
  pose proof (auth_callback_spec env tokenStorage code upstream now iv
                disk w) as Hspec.
  cbv zeta in Hspec.
  assert (Hposted : forall body,
             file (posted body w) = file w /\
             saves (trace (posted body w)) = saves (trace w)).
  { intros body. split; [reflexivity | ].
    simpl. rewrite saves_app. simpl. apply app_nil_r. }
  destruct (truthy code); simpl in Hspec;
    [ | do 2 eexists; split; [exact Hspec | now split]].
  destruct (truthy (codeVerifier w)); simpl in Hspec;
    [ | do 2 eexists; split; [exact Hspec | now split]].
  destruct upstream as [[ | | b | n | s | props] | ];
    try (do 2 eexists; split; [exact Hspec | intros _; apply Hposted]).
  destruct (truthy (assoc "error" props));
    [do 2 eexists; split; [exact Hspec | intros _; apply Hposted] | ].
  destruct (truthy (assoc "access_token" props)); simpl in Hspec;
    [ | do 2 eexists; split; [exact Hspec | intros _; apply Hposted]].
  destruct Hspec as [content Hspec].
  do 2 eexists. split; [exact Hspec | ]. intros Hreply. now contradict Hreply.
Qed.

(** X17.  The success page does not mean the record was stored.  When
    the token response is accepted but the write does not go through, the
    handler still replies with the success page and clears the verifier.
    If the file could not be opened, the token file is as before, and on
    a store that had no file [getValidAccessToken()] then throws its "No
    tokens available" error; if the write failed after the file was
    opened, the file holds only the first characters of the new text. *)
Theorem success_page_despite_failed_write code props now iv disk w :
  truthy code = true -> truthy (codeVerifier w) = true ->
  truthy (assoc "error" props) = false ->
  truthy (assoc "access_token" props) = true ->
  disk <> Written ->
  let record :=
    new_tokens (assoc "access_token" props) (assoc "refresh_token" props)
      (assoc "expires_in" props) now in
  exists w',
    auth_callback env tokenStorage code (Responded (VObj props)) now iv
      disk w = (Ok LoginSuccessful, w') /\
    codeVerifier w' = VNull /\
    (disk = NotOpened ->
     file w' = file w /\
     (file w = None ->
      forall now2 now3 upstream2 iv2 disk2,
        getValidAccessToken env tokenStorage now2 now3 upstream2 iv2
          disk2 w' = (Throw NoTokensError, w'))) /\
    (forall n,
        disk = Torn n ->
        file w' =
          Some (String.substring 0 n
                  (JSON_text
                     (envelope tokenStorage (VStr (hex iv))
                        (JSON_text (json_normalize record)))))).
Proof.
  intros Hcode Hver Herror Haccess Hdisk record.
  rewrite (auth_callback_accepted code props now iv disk w Hcode Hver Herror
             Haccess).
  fold record.
  eexists. split; [reflexivity | split; [reflexivity | split]].
  - intros ->.
    assert (Hfile : file (cleared
               (snd (saveTokens tokenStorage iv NotOpened record
                       (posted (requestData env code (codeVerifier w)) w))))
             = file w).
    { cbn [cleared file].
      now destruct (refused_write_keeps_file tokenStorage iv record
                      (posted (requestData env code (codeVerifier w)) w)). }
    split; [exact Hfile | ].
    intros Hnone now2 now3 upstream2 iv2 disk2.
    apply getValidAccessToken_none, loadTokens_absent.
    now rewrite Hfile.
  - intros n ->. cbn [cleared file].
    now apply torn_write_file.
Qed.

(** X9.  The login handler stores a verifier of 64 characters of the alphabet,
    within the 43 to 128 the comment in the source asks for, redirects
    with the SHA-256 digest of exactly that verifier as [code_challenge]
    under the method [S256], and touches neither the token file nor the
    history of calls. *)
Theorem login_binds_challenge_to_verifier draw w :
  in_range draw ->
  exists verifier params,
    auth_login env draw w =
      (Ok (Redirect params),
       {| file := file w; codeVerifier := VStr verifier; trace := trace w |}) /\
    String.length verifier = 64%nat /\
    all_in characters verifier /\
    assoc "code_challenge" params = VStr (sha256_hex verifier) /\
    assoc "code_challenge_method" params = VStr "S256".
Proof.
  intros Hdraw.
  exists (generateRandomString 64 draw). eexists.
  split; [reflexivity | ].
  split; [now apply generateRandomString_length | ].
  split; [apply (random_loop_facts draw 64 0 "" I) | ].
  split; reflexivity.
Qed.

End LifecycleMore.

(** ** The relay handlers *)

Section RelayFacts.
Context `{P : Platform}.
Variable env : config.
Variable tokenStorage : SecureTokenStorage.

(** Each handler in terms of what [getValidAccessToken()] did. *)
Lemma creator_info_run i api s :
  creator_info env tokenStorage i api s =
  match token_outcome env tokenStorage i s with
  | (Throw _, w') => (Ok (Plain 500 "API call failed"), with_core w' s)
  | (Ok bearer, w') =>
      match api with
      | Responded data =>
          (Ok (Json 200 data),
           called (creator_info_request bearer) (with_core w' s))
      | Rejected =>
          (Ok (Plain 500 "API call failed"),
           called (creator_info_request bearer) (with_core w' s))
      end
  end.
Proof.
  unfold creator_info, try_catch_s, bind_s, valid_token, on_core, token_outcome.
  destruct (getValidAccessToken _ _ _ _ _ _ _ _) as [[bearer | e] w'];
    [ | reflexivity].
  now destruct api.
Qed.

Lemma user_info_run i fields api s :
  user_info env tokenStorage i fields api s =
  match token_outcome env tokenStorage i s with
  | (Throw e, w') =>
      (Ok (Failure "User info request failed" e), with_core w' s)
  | (Ok bearer, w') =>
      if negb (truthy fields) then (Ok fields_required, with_core w' s) else
      match api with
      | Responded data =>
          (Ok (Json 200 data),
           called (user_info_request fields bearer) (with_core w' s))
      | Rejected =>
          (Ok (Failure "User info request failed" AxiosError),
           called (user_info_request fields bearer) (with_core w' s))
      end
  end.
Proof.
  unfold user_info, try_catch_s, bind_s, valid_token, on_core, token_outcome.
  destruct (getValidAccessToken _ _ _ _ _ _ _ _) as [[bearer | e] w'];
    [ | reflexivity].
  destruct (truthy fields); [ | reflexivity].
  now destruct api.
Qed.

Lemma video_status_run i publish_id api s :
  video_status env tokenStorage i publish_id api s =
  match token_outcome env tokenStorage i s with
  | (Throw e, w') => (Ok (Failure "Status check failed" e), with_core w' s)
  | (Ok bearer, w') =>
      if negb (truthy publish_id)
      then (Ok publish_id_required, with_core w' s) else
      match api with
      | Responded data =>
          (Ok (Json 200 data),
           called (video_status_request publish_id bearer) (with_core w' s))
      | Rejected =>
          (Ok (Failure "Status check failed" AxiosError),
           called (video_status_request publish_id bearer) (with_core w' s))
      end
  end.
Proof.
  unfold video_status, try_catch_s, bind_s, valid_token, on_core, token_outcome.
  destruct (getValidAccessToken _ _ _ _ _ _ _ _) as [[bearer | e] w'];
    [ | reflexivity].
  destruct (truthy publish_id); [ | reflexivity].
  now destruct api.
Qed.

Lemma with_core_same s : with_core (core s) s = s.
Proof. now destruct s. Qed.

(** X18.  Without credentials every relay handler answers with status 500 and
    sends nothing, neither to the token endpoint nor to the API; the check
    of the request's own parameter comes later, so a request that also
    lacks [fields] or [publish_id] gets the 500 and not the 400. *)
Theorem relay_without_credentials i api fields publish_id s :
  file (core s) = None ->
  creator_info env tokenStorage i api s
    = (Ok (Plain 500 "API call failed"), s) /\
  user_info env tokenStorage i fields api s
    = (Ok (Failure "User info request failed" NoTokensError), s) /\
  video_status env tokenStorage i publish_id api s
    = (Ok (Failure "Status check failed" NoTokensError), s).
Proof.
  intros Hfile.
  assert (Htoken : token_outcome env tokenStorage i s = (Throw NoTokensError, core s)).
  { apply getValidAccessToken_none, loadTokens_absent, Hfile. }
  rewrite creator_info_run, user_info_run, video_status_run, Htoken.
  now rewrite with_core_same.
Qed.

(** X19.  With a record that is still valid, [GET /creator-info] sends exactly
    one request, bearing the stored access token, and none to the token
    endpoint; it relays the data of the answer as they are, and answers
    "API call failed" when the API rejects the request. *)
Theorem creator_info_relays i s tokens n :
  loadTokens tokenStorage (core s) = (Ok tokens, core s) ->
  truthy tokens = true ->
  to_number (prop tokens "expires_at") = Finite n ->
  t_now i < n - 60000 ->
  let sent := called (creator_info_request (prop tokens "access_token")) s in
  (forall data,
      creator_info env tokenStorage i (Responded data) s
        = (Ok (Json 200 data), sent)) /\
  creator_info env tokenStorage i Rejected s
    = (Ok (Plain 500 "API call failed"), sent).
Proof.
  intros Hload Htokens Hn Hlt sent.
  assert (Htoken : token_outcome env tokenStorage i s = (Ok (prop tokens "access_token"), core s)).
  { now apply (getValidAccessToken_cached env tokenStorage _ _ _ _ _ _
                 tokens n). }
  split; [intros data | ];
    rewrite creator_info_run, Htoken, with_core_same; reflexivity.
Qed.

(** X20.  With a record that is still valid, [GET /user/info] and
    [GET /video/status] answer a request that lacks its parameter with
    status 400 and send nothing; with the parameter they send exactly one
    request, carrying the parameter and the stored access token, and relay
    the data of the answer as they are. *)
Theorem parameter_checked_then_relayed i s tokens n param data :
  loadTokens tokenStorage (core s) = (Ok tokens, core s) ->
  truthy tokens = true ->
  to_number (prop tokens "expires_at") = Finite n ->
  t_now i < n - 60000 ->
  let bearer := prop tokens "access_token" in
  (truthy param = false ->
   user_info env tokenStorage i param (Responded data) s
     = (Ok fields_required, s) /\
   video_status env tokenStorage i param (Responded data) s
     = (Ok publish_id_required, s)) /\
  (truthy param = true ->
   user_info env tokenStorage i param (Responded data) s
     = (Ok (Json 200 data), called (user_info_request param bearer) s) /\
   video_status env tokenStorage i param (Responded data) s
     = (Ok (Json 200 data), called (video_status_request param bearer) s)).
Proof.
  intros Hload Htokens Hn Hlt bearer.
  assert (Htoken : token_outcome env tokenStorage i s = (Ok bearer, core s)).
  { now apply (getValidAccessToken_cached env tokenStorage _ _ _ _ _ _
                 tokens n). }
  split; intros Hparam;
    rewrite user_info_run, video_status_run, Htoken, Hparam, with_core_same;
    now split.
Qed.

(** X21.  The token is fetched before the request is looked at: on a stale
    record, a [GET /user/info] without [fields] is answered with status
    400 only after the refresh request has been sent and its answer passed
    to [saveTokens]; nothing goes to the API. *)
Theorem refresh_precedes_parameter_check i s tokens data fields api :
  loadTokens tokenStorage (core s) = (Ok tokens, core s) ->
  truthy tokens = true ->
  still_valid (t_now i) (prop tokens "expires_at") = false ->
  t_upstream i = Responded data -> truthy data = true ->
  truthy fields = false ->
  exists w',
    user_info env tokenStorage i fields api s
      = (Ok fields_required, with_core w' s) /\
    posts (trace w') = Datatypes.S (posts (trace (core s))) /\
    saves (trace w') =
      (saves (trace (core s)) ++
         [new_tokens (prop data "access_token") (prop data "refresh_token")
            (prop data "expires_in") (t_saved i)])%list.
Proof.
  intros Hload Htokens Hstale Hup Hdata Hfields.
  pose proof (getValidAccessToken_spec env tokenStorage (t_now i) (t_saved i)
                (t_upstream i) (t_iv i) (t_disk i) (core s) tokens Hload)
    as Hspec.
  cbv zeta in Hspec. rewrite Htokens, Hstale, Hup in Hspec.
  cbn [negb] in Hspec.
  assert (Htoken : exists w',
    token_outcome env tokenStorage i s = (Ok (prop data "access_token"), w') /\
    trace w' =
      (trace (core s) ++
         [EvPost (refreshData env (prop tokens "refresh_token"));
          EvSave (new_tokens (prop data "access_token")
                    (prop data "refresh_token") (prop data "expires_in")
                    (t_saved i))])%list).
  { unfold token_outcome. rewrite Hup.
    destruct (saveTokens_total tokenStorage (t_iv i) (t_disk i)
                (new_tokens (prop data "access_token")
                   (prop data "refresh_token") (prop data "expires_in")
                   (t_saved i))
                (posted (refreshData env (prop tokens "refresh_token"))
                   (core s))) as (done & content & Hsave).
    destruct data; try discriminate; rewrite Hspec, Hsave;
      (eexists; split; [reflexivity | ]); simpl; now rewrite <- app_assoc. }
  destruct Htoken as (w' & Htoken & Htrace).
  exists w'. rewrite user_info_run, Htoken, Hfields. cbn [negb].
  split; [reflexivity | ].
  rewrite Htrace, posts_app, saves_app. simpl.
  split; [lia | reflexivity].
Qed.

(** X22.  A refused refresh reaches the API as [Bearer undefined].  On a stale
    record, when the token endpoint answers the refresh with an error
    body, [GET /creator-info] goes on to send its API request with
    [undefined] in the place of the access token, and relays whatever
    comes back. *)
Theorem refused_refresh_is_relayed i s tokens error description data :
  loadTokens tokenStorage (core s) = (Ok tokens, core s) ->
  truthy tokens = true ->
  still_valid (t_now i) (prop tokens "expires_at") = false ->
  t_upstream i =
    Responded (VObj [("error", error); ("error_description", description)]) ->
  exists w',
    creator_info env tokenStorage i (Responded data) s
      = (Ok (Json 200 data),
         called (creator_info_request VUndefined) (with_core w' s)).
Proof.
  intros Hload Htokens Hstale Hup.
  pose proof (getValidAccessToken_spec env tokenStorage (t_now i) (t_saved i)
                (t_upstream i) (t_iv i) (t_disk i) (core s) tokens Hload)
    as Hspec.
  cbv zeta in Hspec. rewrite Htokens, Hstale, Hup in Hspec.
  cbn [negb prop get_prop assoc String.eqb Ascii.eqb Bool.eqb] in Hspec.
  eexists. rewrite creator_info_run. unfold token_outcome. rewrite Hup, Hspec.
  reflexivity.
Qed.

End RelayFacts.

(** ** The chunk plan *)

(** X23.  For a file that is not empty, the chunk plan of
    [POST /video/direct-post] covers the file exactly: the chunk size is
    positive, at most ten mebibytes and at most the file size, and the
    chunk count [n] is the least number of such chunks that hold the file;
    a file of at most ten mebibytes is one chunk.  For an empty file the
    chunk size is zero and the count is [NaN]. *)
Theorem chunk_plan_covers_file fileSize :
  totalChunkCount 0 = NaN /\
  (0 < fileSize ->
   exists n,
     totalChunkCount fileSize = Finite n /\
     0 < chunkSize fileSize <= 10485760 /\
     chunkSize fileSize <= fileSize /\
     (n - 1) * chunkSize fileSize < fileSize <= n * chunkSize fileSize /\
     (fileSize <= 10485760 -> n = 1)).
Proof.
  split; [reflexivity | ].
  intros Hpos.
  assert (Hchunk : 0 < chunkSize fileSize <= 10485760 /\
                   chunkSize fileSize <= fileSize /\
                   (fileSize <= 10485760 -> chunkSize fileSize = fileSize)).
  { unfold chunkSize. change (10 * 1024 * 1024) with 10485760.
    destruct (Z.ltb_spec fileSize 10485760); lia. }
  destruct Hchunk as (Hrange & Hle & Hsmall).
  set (c := chunkSize fileSize) in *.
  exists (- ((- fileSize) / c)).
  unfold totalChunkCount, ceil_div. fold c.
  destruct (Z.eqb_spec c 0) as [Hzero | _]; [lia | ].
  split; [reflexivity | ].
  split; [exact Hrange | split; [exact Hle | ]].
  pose proof (Z.div_mod (- fileSize) c ltac:(lia)) as Hdiv.
  pose proof (Z.mod_pos_bound (- fileSize) c ltac:(lia)) as Hmod.
  split; [nia | ].
  intros Hfit. specialize (Hsmall Hfit). nia.
Qed.

(** ** Runs on the sample platform *)

Section OnSample.
#[local] Existing Instance Sample.platform.

Lemma save_load_roundtrip_witness :
  let r := CredentialRecord "a" "r" 5000 in
  well_formed r /\
  (exists w',
      saveTokens Sample.storage [x01] Written r initial_world = (Ok true, w')) /\
  (forall disk w',
      saveTokens Sample.storage [x01] disk r initial_world = (Ok true, w') ->
      loadTokens Sample.storage w' = (Ok r, w')).
Proof.
  intros r.
  assert (Hwf : well_formed r).
  { exists "a", "r", 5000. repeat split; discriminate. }
  split; [exact Hwf | ].
  exact (@save_load_roundtrip Sample.platform Sample.storage Sample_laws
           [x01] r initial_world Hwf).
Defined.

Lemma load_absent_or_garbage_witness :
  let undecipherable :=
    JSON_text (VObj [("iv", VStr "00"); ("encrypted", VStr "zz")]) in
  loadTokens Sample.storage initial_world = (Ok VNull, initial_world) /\
  loadTokens Sample.storage (with_file "garbage" initial_world)
    = (Ok VNull, with_file "garbage" initial_world) /\
  loadTokens Sample.storage (with_file undecipherable initial_world)
    = (Ok VNull, with_file undecipherable initial_world).
Proof.
  intros undecipherable.
  destruct (@load_absent_or_garbage Sample.platform Sample.storage)
    as (Habsent & Hgarbage & _).
  split; [ | split].
  - apply Habsent. reflexivity.
  - apply (Hgarbage _ "garbage"); [reflexivity | exact I].
  - apply (Hgarbage _ undecipherable); [reflexivity | ].
    vm_compute. exact I.
Defined.

Lemma load_ignores_stored_iv_witness :
  exists w',
    saveTokens Sample.storage [x01] Written (CredentialRecord "a" "r" 5000)
      initial_world = (Ok true, w') /\
    file w' = Some (JSON_text (envelope Sample.storage (VStr (hex [x01]))
                                 (JSON_text (CredentialRecord "a" "r" 5000)))) /\
    let tampered :=
      with_file (JSON_text (envelope Sample.storage (VStr "ff")
                              (JSON_text (CredentialRecord "a" "r" 5000)))) w' in
    loadTokens Sample.storage tampered
      = (Ok (CredentialRecord "a" "r" 5000), tampered).
Proof.
  apply (@load_ignores_stored_iv Sample.platform Sample.storage Sample_laws);
    reflexivity.
Defined.

Lemma callback_preconditions_witness :
  auth_callback Sample.env Sample.storage (VStr "") Sample.granted 1000 [x2a]
    Written Sample.authorizing = (Ok MissingCode, Sample.authorizing) /\
  auth_callback Sample.env Sample.storage (VStr "c") Sample.granted 1000 [x2a]
    Written initial_world = (Ok MissingVerifier, initial_world) /\
  let first :=
    auth_callback Sample.env Sample.storage (VStr "c") Sample.granted 1000
      [x2a] Written Sample.authorizing in
  fst first = Ok LoginSuccessful /\
  auth_callback Sample.env Sample.storage (VStr "c") Sample.granted 2000 [x2a]
    Written (snd first) = (Ok MissingVerifier, snd first).
Proof.
  split; [ | split; [ | split]].
  - apply (callback_preconditions Sample.env Sample.storage). reflexivity.
  - apply (callback_preconditions Sample.env Sample.storage); reflexivity.
  - vm_compute. reflexivity.
  - apply (proj2 (proj2 (proj2
      (callback_preconditions Sample.env Sample.storage (VStr "c")
         Sample.granted 1000 [x2a] Written Sample.authorizing)))).
    vm_compute. reflexivity.
Defined.

Lemma verifier_cleared_on_success_witness :
  truthy (VStr "c") = true /\
  truthy (codeVerifier Sample.authorizing) = true /\
  exists reply w',
    auth_callback Sample.env Sample.storage (VStr "c") Sample.granted 1000
      [x2a] NotOpened Sample.authorizing = (Ok reply, w') /\
    (exchange_succeeds Sample.granted = true ->
     reply = LoginSuccessful /\ codeVerifier w' = VNull) /\
    (exchange_succeeds Sample.granted = false ->
     reply <> LoginSuccessful /\
     codeVerifier w' = codeVerifier Sample.authorizing).
Proof.
  assert (Hcode : truthy (VStr "c") = true) by reflexivity.
  assert (Hver : truthy (codeVerifier Sample.authorizing) = true)
    by (vm_compute; reflexivity).
  split; [exact Hcode | split; [exact Hver | ]].
  exact (verifier_cleared_on_success Sample.env Sample.storage (VStr "c")
           Sample.granted 1000 [x2a] NotOpened Sample.authorizing Hcode Hver).
Defined.

(** C3 (counterexample).  A callback whose token response carries an error
    leaves the verifier outstanding. *)
Lemma verifier_survives_rejection :
  let call :=
    auth_callback Sample.env Sample.storage (VStr "c") Sample.refused 1000
      [x2a] Written Sample.authorizing in
  fst call = Ok (UpstreamRejected (VStr "invalid_grant") (VStr "revoked")) /\
  codeVerifier (snd call) = codeVerifier Sample.authorizing /\
  truthy (codeVerifier (snd call)) = true.
Proof. vm_compute. repeat split. Qed.

(** C2 (counterexample).  A token response with an [access_token] and
    nothing else is saved as it is, and the record loaded afterwards has
    no [refresh_token] and no expiry. *)
Lemma callback_persists_partial_record :
  let call :=
    auth_callback Sample.env Sample.storage (VStr "c")
      (Responded (VObj [("access_token", VStr "a")])) 1000 [x2a] Written
      Sample.authorizing in
  let saved :=
    VObj [("access_token", VStr "a"); ("refresh_token", VUndefined);
          ("expires_at", VNum NaN)] in
  let loaded := VObj [("access_token", VStr "a"); ("expires_at", VNull)] in
  fst call = Ok LoginSuccessful /\
  saves (trace (snd call)) = [saved] /\
  fully_populated saved = false /\
  fst (loadTokens Sample.storage (snd call)) = Ok loaded /\
  fully_populated loaded = false.
Proof. vm_compute. repeat split. Qed.

Lemma latest_verifier_wins_witness :
  in_range Sample.draw /\
  truthy (VStr "c") = true /\
  let w1 :=
    logins Sample.env ([fun _ => 1%nat; fun _ => 2%nat] ++ [Sample.draw])
      initial_world in
  let verifier := VStr (generateRandomString 64 Sample.draw) in
  w1 = snd (auth_login Sample.env Sample.draw initial_world) /\
  codeVerifier w1 = verifier /\
  exists body rest,
    trace (snd (auth_callback Sample.env Sample.storage (VStr "c")
                  Sample.granted 1000 [x2a] Written w1))
      = (trace initial_world ++ EvPost body :: rest)%list /\
    body = requestData Sample.env (VStr "c") verifier /\
    carries body "code_verifier" verifier /\
    carries body "code" (VStr "c") /\
    posts rest = 0%nat.
Proof.
  assert (Hdraw : in_range Sample.draw).
  { intros i. vm_compute. lia. }
  split; [exact Hdraw | split; [reflexivity | ]].
  exact (latest_verifier_wins Sample.env Sample.storage
           [fun _ => 1%nat; fun _ => 2%nat] Sample.draw (VStr "c")
           Sample.granted 1000 [x2a] Written initial_world Hdraw eq_refl).
Defined.

Lemma refresh_margin_witness :
  let w := Sample.stored (CredentialRecord "a" "r" 6000) in
  let tokens := CredentialRecord "a" "r" 6000 in
  loadTokens Sample.storage w = (Ok tokens, w) /\
  truthy tokens = true /\
  prop tokens "expires_at" = VNum (Finite 6000) /\
  let call :=
    getValidAccessToken Sample.env Sample.storage 1000 1001 Sample.granted
      [x2a] Written w in
  (1000 < 6000 - 60000 -> call = (Ok (prop tokens "access_token"), w)) /\
  (6000 - 60000 <= 1000 -> posts (trace (snd call)) = S (posts (trace w))) /\
  (6000 = 1000 + 5000 -> posts (trace (snd call)) = S (posts (trace w))).
Proof.
  intros w tokens.
  assert (Hload : loadTokens Sample.storage w = (Ok tokens, w))
    by (vm_compute; reflexivity).
  split; [exact Hload | split; [reflexivity | split; [reflexivity | ]]].
  exact (refresh_margin Sample.env Sample.storage 1000 1001 Sample.granted
           [x2a] Written w tokens 6000 Hload eq_refl eq_refl).
Defined.

(** C5 (counterexample).  With [expires_at = now + 5000] the call made
    immediately does not return the stored token: it sends a refresh
    request and returns the renewed token. *)
Lemma expiry_within_margin_refreshes :
  let w := Sample.stored (CredentialRecord "a" "r" (1000 + 5000)) in
  let call :=
    getValidAccessToken Sample.env Sample.storage 1000 1000 Sample.granted
      [x2a] Written w in
  fst (loadTokens Sample.storage w) = Ok (CredentialRecord "a" "r" 6000) /\
  posts (trace w) = 0%nat /\
  posts (trace (snd call)) = 1%nat /\
  fst call = Ok (VStr "b").
Proof. vm_compute. repeat split. Qed.

Lemma refresh_error_overwrites_store_witness :
  let w := Sample.stored (CredentialRecord "a" "r" 6000) in
  let tokens := CredentialRecord "a" "r" 6000 in
  loadTokens Sample.storage w = (Ok tokens, w) /\
  truthy tokens = true /\
  still_valid 7000 (prop tokens "expires_at") = false /\
  exists w',
    getValidAccessToken Sample.env Sample.storage 7000 7001
      (Responded (VObj [("error", VStr "invalid_grant");
                        ("error_description", VStr "revoked")])) [x2a] Written w
      = (Ok VUndefined, w') /\
    saves (trace w') =
      (saves (trace w) ++
         [VObj [("access_token", VUndefined); ("refresh_token", VUndefined);
                ("expires_at", VNum NaN)]])%list /\
    loadTokens Sample.storage w' = (Ok (VObj [("expires_at", VNull)]), w').
Proof.
  intros w tokens.
  assert (Hload : loadTokens Sample.storage w = (Ok tokens, w))
    by (vm_compute; reflexivity).
  split; [exact Hload | split; [reflexivity | split; [reflexivity | ]]].
  exact (@refresh_error_overwrites_store Sample.platform Sample.env
           Sample.storage Sample_laws 7000 7001 [x2a] w tokens
           (VStr "invalid_grant") (VStr "revoked") Hload eq_refl eq_refl).
Defined.

End OnSample.

(** ** Further runs on the sample platform *)

Section OnSampleMore.
#[local] Existing Instance Sample.platform.

Lemma fresh_loads :
  loadTokens Sample.storage Run.fresh = (Ok Run.fresh_record, Run.fresh).
Proof. vm_compute. reflexivity. Qed.

Lemma stale_loads :
  loadTokens Sample.storage Run.stale = (Ok Run.stale_record, Run.stale).
Proof. vm_compute. reflexivity. Qed.


Lemma failed_save_returns_false_witness :
  let out :=
    saveTokens Sample.storage [x2a] (Torn 0) Run.stale_record Run.fresh in
  let kept :=
    saveTokens Sample.storage [x2a] NotOpened Run.stale_record Run.fresh in
  fst out = Ok false /\ file (snd out) = Some "" /\
  fst kept = Ok false /\ file (snd kept) = file Run.fresh.
Proof.
  intros out kept.
  destruct (failed_save_returns_false Sample.storage [x2a] (Torn 0)
              Run.stale_record Run.fresh) as (Hfalse & _ & Htorn).
  { left. discriminate. }
  destruct (failed_save_returns_false Sample.storage [x2a] NotOpened
              Run.stale_record Run.fresh) as (Hrefused & Hkept & _).
  { left. discriminate. }
  split; [exact Hfalse | split].
  - exact (Htorn 0%nat _ eq_refl eq_refl).
  - split; [exact Hrefused | ].
    exact (proj1 (Hkept (or_introl eq_refl))).
Defined.

Lemma clear_refused_witness :
  clearTokens false Run.fresh = (Ok false, Run.fresh) /\
  clearTokens false initial_world = (Ok true, initial_world).
Proof.
  destruct (clear_refused Run.fresh) as [Hpresent _].
  destruct (clear_refused initial_world) as [_ Habsent].
  split.
  - destruct (file Run.fresh) as [content | ] eqn:Hfile.
    + exact (Hpresent content eq_refl).
    + vm_compute in Hfile. discriminate Hfile.
  - exact (Habsent eq_refl false).
Defined.

Lemma hasValidTokens_margin_witness :
  (exists w',
      saveTokens Sample.storage [x2a] Written (CredentialRecord "a" "r" 1000000)
        initial_world = (Ok true, w') /\
      hasValidTokens Sample.storage 1000 w'
        = (Ok (1000 <? 1000000 - 300000), w')) /\
  (file initial_world = None ->
   hasValidTokens Sample.storage 1000 initial_world
     = (Ok false, initial_world)).
Proof.
  apply (@hasValidTokens_margin Sample.platform Sample.storage Sample_laws).
  discriminate.
Defined.

Lemma configured_key_survives_restart_witness :
  let before := new_SecureTokenStorage (Some "secret") [x01] in
  let after := new_SecureTokenStorage (Some "secret") [x02] in
  exists w',
    saveTokens before [x2a] Written Run.fresh_record initial_world
      = (Ok true, w') /\
    loadTokens after w' = (Ok Run.fresh_record, w').
Proof.
  apply (@configured_key_survives_restart Sample.platform Sample_laws
           "secret" [x01] [x02] [x2a] Run.fresh_record initial_world).
  - discriminate.
  - exists "a", "r", 1000000. repeat split; discriminate.
Defined.

Lemma generated_key_used_as_is_witness :
  let key := generateEncryptionKey (repeat x00 32) in
  String.length key = 64%nat /\
  encryptionKey (new_SecureTokenStorage None (repeat x00 32)) = key /\
  encryptionKey (new_SecureTokenStorage (Some "") (repeat x00 32)) = key.
Proof.
  apply (generated_key_used_as_is (repeat x00 32)). reflexivity.
Defined.

Lemma generateRandomString_alphabet_witness :
  in_range Sample.draw /\
  String.length (generateRandomString 64 Sample.draw) = 64%nat /\
  all_in characters (generateRandomString 64 Sample.draw).
Proof.
  assert (Hdraw : in_range Sample.draw) by (intros i; vm_compute; lia).
  destruct (generateRandomString_alphabet Sample.draw 64)
    as (Hall & _ & Hlen).
  split; [exact Hdraw | split; [exact (Hlen Hdraw) | exact Hall]].
Defined.

Lemma no_credentials_no_request_witness :
  getValidAccessToken Sample.env Sample.storage 1000 1001 Sample.granted
    [x2a] Written initial_world = (Throw NoTokensError, initial_world) /\
  getValidAccessToken Sample.env Sample.storage 1000 1001 Sample.granted
    [x2a] Written (with_file "garbage" initial_world)
    = (Throw NoTokensError, with_file "garbage" initial_world).
Proof.
  split.
  - apply (no_credentials_no_request Sample.env Sample.storage).
    left. reflexivity.
  - apply (no_credentials_no_request Sample.env Sample.storage).
    right. exists "garbage". split; [reflexivity | exact I].
Defined.

Lemma hasValidTokens_then_cached_witness :
  exists tokens,
    Run.fresh = Run.fresh /\
    loadTokens Sample.storage Run.fresh = (Ok tokens, Run.fresh) /\
    truthy (prop tokens "access_token") = true /\
    getValidAccessToken Sample.env Sample.storage 200000 200001
      Sample.granted [x2a] Written Run.fresh
      = (Ok (prop tokens "access_token"), Run.fresh).
Proof.
  apply (hasValidTokens_then_cached Sample.env Sample.storage 1000 Run.fresh
           Run.fresh).
  - vm_compute. reflexivity.
  - lia.
Defined.


Lemma failed_refresh_keeps_store_witness :
  exists e w',
    getValidAccessToken Sample.env Sample.storage 7000 7001 Rejected [x2a]
      Written Run.stale = (Throw e, w') /\
    trace w' =
      (trace Run.stale ++
         [EvPost (refreshData Sample.env
                    (prop Run.stale_record "refresh_token"))])%list /\
    file w' = file Run.stale /\
    loadTokens Sample.storage w' = (Ok Run.stale_record, w').
Proof.
  apply (failed_refresh_keeps_store Sample.env Sample.storage 7000 7001
           Rejected [x2a] Written Run.stale Run.stale_record stale_loads);
    reflexivity.
Defined.


Lemma failed_callback_keeps_store_witness :
  exists reply w',
    auth_callback Sample.env Sample.storage (VStr "c") Sample.refused 1000
      [x2a] Written Sample.authorizing = (Ok reply, w') /\
    (reply <> LoginSuccessful ->
     file w' = file Sample.authorizing /\
     saves (trace w') = saves (trace Sample.authorizing)).
Proof.
  exact (failed_callback_keeps_store Sample.env Sample.storage (VStr "c")
           Sample.refused 1000 [x2a] Written Sample.authorizing).
Defined.

Lemma success_page_despite_failed_write_witness :
  (exists w',
      auth_callback Sample.env Sample.storage (VStr "c")
        (Responded (VObj Run.granted_props)) 1000 [x2a] NotOpened
        Sample.authorizing = (Ok LoginSuccessful, w') /\
      codeVerifier w' = VNull /\
      file w' = file Sample.authorizing) /\
  (exists w',
      auth_callback Sample.env Sample.storage (VStr "c")
        (Responded (VObj Run.granted_props)) 1000 [x2a] (Torn 0)
        Sample.authorizing = (Ok LoginSuccessful, w') /\
      codeVerifier w' = VNull /\
      file w' = Some "").
Proof.
  split.
  - destruct (success_page_despite_failed_write Sample.env Sample.storage
                (VStr "c") Run.granted_props 1000 [x2a] NotOpened
                Sample.authorizing)
      as (w' & Hcall & Hcleared & Hkept & _);
      try reflexivity; try discriminate.
    exists w'. split; [exact Hcall | split; [exact Hcleared | ]].
    exact (proj1 (Hkept eq_refl)).
  - destruct (success_page_despite_failed_write Sample.env Sample.storage
                (VStr "c") Run.granted_props 1000 [x2a] (Torn 0)
                Sample.authorizing)
      as (w' & Hcall & Hcleared & _ & Htorn);
      try reflexivity; try discriminate.
    exists w'. split; [exact Hcall | split; [exact Hcleared | ]].
    exact (Htorn 0%nat eq_refl).
Defined.

Lemma login_binds_challenge_to_verifier_witness :
  exists verifier params,
    auth_login Sample.env Sample.draw initial_world =
      (Ok (Redirect params),
       {| file := None; codeVerifier := VStr verifier; trace := [] |}) /\
    String.length verifier = 64%nat /\
    all_in characters verifier /\
    assoc "code_challenge" params = VStr (sha256_hex verifier) /\
    assoc "code_challenge_method" params = VStr "S256".
Proof.
  apply (login_binds_challenge_to_verifier Sample.env Sample.draw
           initial_world).
  intros i. vm_compute. lia.
Defined.

Lemma relay_without_credentials_witness :
  let s := serving initial_world in
  creator_info Sample.env Sample.storage Run.refreshing Rejected s
    = (Ok (Plain 500 "API call failed"), s) /\
  user_info Sample.env Sample.storage Run.refreshing VUndefined Rejected s
    = (Ok (Failure "User info request failed" NoTokensError), s) /\
  video_status Sample.env Sample.storage Run.refreshing VUndefined Rejected s
    = (Ok (Failure "Status check failed" NoTokensError), s).
Proof.
  apply (relay_without_credentials Sample.env Sample.storage). reflexivity.
Defined.

Lemma creator_info_relays_witness :
  let s := serving Run.fresh in
  let sent := called (creator_info_request (VStr "a")) s in
  (forall data,
      creator_info Sample.env Sample.storage Run.refreshing (Responded data) s
        = (Ok (Json 200 data), sent)) /\
  creator_info Sample.env Sample.storage Run.refreshing Rejected s
    = (Ok (Plain 500 "API call failed"), sent).
Proof.
  apply (creator_info_relays Sample.env Sample.storage Run.refreshing
           (serving Run.fresh) Run.fresh_record 1000000 fresh_loads);
    [reflexivity | reflexivity | simpl; lia].
Defined.

Lemma parameter_checked_then_relayed_witness :
  let s := serving Run.fresh in
  (user_info Sample.env Sample.storage Run.refreshing (VStr "")
     (Responded VNull) s = (Ok fields_required, s) /\
   video_status Sample.env Sample.storage Run.refreshing (VStr "")
     (Responded VNull) s = (Ok publish_id_required, s)) /\
  (user_info Sample.env Sample.storage Run.refreshing (VStr "open_id")
     (Responded VNull) s
     = (Ok (Json 200 VNull),
        called (user_info_request (VStr "open_id") (VStr "a")) s) /\
   video_status Sample.env Sample.storage Run.refreshing (VStr "open_id")
     (Responded VNull) s
     = (Ok (Json 200 VNull),
        called (video_status_request (VStr "open_id") (VStr "a")) s)).
Proof.
  intros s.
  assert (Hlt : t_now Run.refreshing < 1000000 - 60000) by (simpl; lia).
  split.
  - apply (parameter_checked_then_relayed Sample.env Sample.storage
             Run.refreshing s Run.fresh_record 1000000 (VStr "") VNull
             fresh_loads eq_refl eq_refl Hlt).
    reflexivity.
  - apply (parameter_checked_then_relayed Sample.env Sample.storage
             Run.refreshing s Run.fresh_record 1000000 (VStr "open_id") VNull
             fresh_loads eq_refl eq_refl Hlt).
    reflexivity.
Defined.

Lemma refresh_precedes_parameter_check_witness :
  let s := serving Run.stale in
  exists w',
    user_info Sample.env Sample.storage Run.refreshing VUndefined Rejected s
      = (Ok fields_required, with_core w' s) /\
    posts (trace w') = Datatypes.S (posts (trace Run.stale)) /\
    saves (trace w') =
      (saves (trace Run.stale) ++
         [new_tokens (VStr "b") (VStr "r2") (VNum (Finite 3600)) 7001])%list.
Proof.
  apply (refresh_precedes_parameter_check Sample.env Sample.storage
           Run.refreshing (serving Run.stale) Run.stale_record
           (VObj Run.granted_props) VUndefined Rejected stale_loads);
    reflexivity.
Defined.

Lemma refused_refresh_is_relayed_witness :
  let s := serving Run.stale in
  exists w',
    creator_info Sample.env Sample.storage Run.refusing (Responded VNull) s
      = (Ok (Json 200 VNull),
         called (creator_info_request VUndefined) (with_core w' s)).
Proof.
  apply (refused_refresh_is_relayed Sample.env Sample.storage Run.refusing
           (serving Run.stale) Run.stale_record (VStr "invalid_grant")
           (VStr "revoked") VNull stale_loads);
    reflexivity.
Defined.

Lemma chunk_plan_covers_file_witness :
  exists n,
    totalChunkCount 26214400 = Finite n /\
    0 < chunkSize 26214400 <= 10485760 /\
    chunkSize 26214400 <= 26214400 /\
    (n - 1) * chunkSize 26214400 < 26214400 <= n * chunkSize 26214400 /\
    (26214400 <= 10485760 -> n = 1).
Proof.
  apply (proj2 (chunk_plan_covers_file 26214400)). lia.
Defined.

End OnSampleMore.
